(** * Script registry and dispatch workflow of the gateway (src/index.ts)

    The three route handlers with business logic -- [GET /script],
    [GET /dispatch/:name] and [PUT /script/:name] -- are embedded as
    programs over the calls they make to the adapters ([./db],
    [./resource]) and to the dispatch namespace binding.  A program is a
    tree of awaited calls; running it against an environment yields the
    sequence of calls performed, with their answers, and the outcome of
    the handler. *)

From Stdlib Require Import PrimFloat.
From stdpp Require Import gmap strings list fin_maps pretty.

Local Open Scope string_scope.
Local Open Scope Z_scope.

(** ** JavaScript values *)

(** The values the handlers touch: what [JSON.parse] produces, plus
    [undefined].  Numbers are IEEE doubles, as in JavaScript. *)
#[warnings="-register-all"]
Inductive value : Type :=
| VUndefined
| VNull
| VBool (b : bool)
| VNum (n : float)
| VStr (s : string)
| VArr (items : list value)
| VObj (props : list (string * value)).

(** What a [throw] carries.  [TypeError] is what reading a property of
    [undefined] or [null] raises, [SyntaxError] what parsing malformed
    JSON raises; [Failure] stands for any other [Error] an adapter or the
    platform raises.  [Thrown v] is a value that is not an [Error]: a
    promise can be rejected with any value, [null] and [undefined]
    included. *)
Inductive exn : Type :=
| TypeError (msg : string)
| SyntaxError (msg : string)
| Failure (msg : string)
| Thrown (v : value).

(** How a promise settles, or how an expression completes. *)
Inductive outcome (A : Type) : Type :=
| Resolved (a : A)
| Rejected (e : exn).
Arguments Resolved {A} a.
Arguments Rejected {A} e.

(** ToBoolean: [undefined], [null], [false], [0], [-0], [NaN] and the
    empty string are falsy; every other value, objects and arrays
    included, is truthy. *)
Definition truthy (v : value) : bool :=
  match v with
  | VUndefined | VNull => false
  | VBool b => b
  | VNum n => negb (PrimFloat.eqb n 0%float) && PrimFloat.eqb n n
  | VStr s => negb (String.eqb s "")
  | VArr _ | VObj _ => true
  end.

(** [o.k] on the own properties of an object: the value of the first
    entry named [k], [undefined] when there is none. *)
Fixpoint prop (props : list (string * value)) (k : string) : value :=
  match props with
  | [] => VUndefined
  | (k', v) :: rest => if String.eqb k' k then v else prop rest k
  end.

(** [v.k] for the property names the handlers read ([script],
    [dispatch_config], [limits], [results]): a [TypeError] on [undefined]
    and [null]; an own property on an object; [undefined] on primitives
    and arrays, whose prototypes define none of these names. *)
Definition get (v : value) (k : string) : outcome value :=
  match v with
  | VUndefined => Rejected (TypeError "Cannot read properties of undefined")
  | VNull => Rejected (TypeError "Cannot read properties of null")
  | VObj props => Resolved (prop props k)
  | VBool _ | VNum _ | VStr _ | VArr _ => Resolved VUndefined
  end.

(** [k in v] for a parsed JSON body. *)
Definition has_prop (v : value) (k : string) : bool :=
  match v with
  | VObj props => existsb (fun kv => String.eqb (fst kv) k) props
  | _ => false
  end.

(** [o[k] = v]: overwrite in place, or append a new property. *)
Fixpoint set_prop (k : string) (v : value) (props : list (string * value))
  : list (string * value) :=
  match props with
  | [] => [(k, v)]
  | (k', v') :: rest =>
      if String.eqb k' k then (k, v) :: rest else (k', v') :: set_prop k v rest
  end.

Fixpoint chars (s : string) : list string :=
  match s with
  | EmptyString => []
  | String a rest => String a EmptyString :: chars rest
  end.

(** The own enumerable properties that object spread copies: those of an
    object, the indices of an array or of a string, none for the other
    primitives, [null] and [undefined]. *)
Definition own_props (v : value) : list (string * value) :=
  match v with
  | VObj props => props
  | VArr items => imap (fun i x => (pretty i, x)) items
  | VStr s => imap (fun i c => (pretty i, VStr c)) (chars s)
  | VUndefined | VNull | VBool _ | VNum _ => []
  end.

(** [{ ...base, ...v }] on top of the properties already written, in
    the order in which they were written. *)
Definition spread (base : list (string * value)) (v : value)
  : list (string * value) :=
  fold_left (fun acc kv => set_prop (fst kv) (snd kv) acc) (own_props v) base.

(** [tags.includes(x)] on an array of strings. *)
Definition includes (tags : list string) (x : string) : bool :=
  existsb (String.eqb x) tags.

(** ** Requests and responses *)

(** [request.customer], attached by the [WithCustomer] middleware. *)
Record Customer : Type := {
  customer_id : string;
  customer_plan_type : string
}.

(** The request as a handler sees it: [request.url],
    [request.params.name], [request.customer] and what
    [request.json()] settles to (a rejection for a malformed body). *)
Record IRequest : Type := {
  url : string;
  params_name : string;
  customer : Customer;
  json : outcome value
}.

(** A [Response] of the fetch API, as the resource adapters and a
    dispatched script return it: [.ok], [.status], [.url], and what
    [.text()] and [.json()] settle to (a rejection when the body cannot be
    read, or is not JSON). *)
Record FetchResponse : Type := {
  ok : bool;
  status : Z;
  response_url : string;
  response_text : outcome string;
  response_json : outcome value
}.

(** What a handler answers.  [ApiResponse] and [JsonResponse] are the
    helpers of [./router], taken as constructors; [JsonResponse] has an
    optional status.  [Forward] is the response of a dispatched script,
    returned as it is. *)
Inductive Response : Type :=
| ApiResponse (body : string) (status : Z)
| JsonResponse (data : value) (status : option Z)
| Forward (r : FetchResponse).

(** The handle [env.dispatcher.get] returns. *)
Record Worker : Type := {
  worker_name : string;
  worker_args : list (string * value);
  worker_options : list (string * value)
}.

(** An argument of [console.log]. *)
Inductive loggable : Type :=
| LogStr (s : string)
| LogNum (n : Z).

(** ** Calls to the adapters and the platform *)

(** The functions of [./db], [./resource] and the bindings that the
    handlers call; the [env] and [request.db] arguments are left out. *)
Inductive effect : Type :=
| GetScriptsByTags (tags : list (string * bool))
| GetTagsOnScript (scriptName : string)
| PutScriptInDispatchNamespace (scriptName : string) (scriptContent : value)
| PutTagsOnScript (scriptName : string) (tags : list string)
| AddDispatchLimits (limits : list (string * value))
| GetDispatchLimitFromScript (scriptName : string)
| GetOutboundWorkerFromScript (scriptName : string)
| dispatcher_get (scriptName : string) (workerArgs : list (string * value))
    (options : list (string * value))
| worker_fetch (worker : Worker) (request : IRequest)
| console_log (args : list loggable).

Definition answer (c : effect) : Type :=
  match c with
  | GetScriptsByTags _ => list string
  | GetTagsOnScript _ => list string
  | PutScriptInDispatchNamespace _ _ => FetchResponse
  | PutTagsOnScript _ _ => FetchResponse
  | AddDispatchLimits _ => unit
  | GetDispatchLimitFromScript _ => value
  | GetOutboundWorkerFromScript _ => value
  | dispatcher_get _ _ _ => Worker
  | worker_fetch _ _ => FetchResponse
  | console_log _ => unit
  end.

(** The calls that change the dispatch namespace or the store. *)
Definition is_write (c : effect) : bool :=
  match c with
  | PutScriptInDispatchNamespace _ _ | PutTagsOnScript _ _
  | AddDispatchLimits _ => true
  | _ => false
  end.

(** ** Handler programs *)

(** An async function body: it returns, throws, or awaits a call and
    goes on with how the call settled. *)
Inductive prog (R : Type) : Type :=
| Return (r : R)
| Throw (e : exn)
| Await (c : effect) (k : outcome (answer c) -> prog R).
Arguments Return {R} r.
Arguments Throw {R} e.
Arguments Await {R} c k.

Fixpoint bind {A B : Type} (p : prog A) (f : A -> prog B) : prog B :=
  match p with
  | Return a => f a
  | Throw e => Throw e
  | Await c k => Await c (fun o => bind (k o) f)
  end.

#[global] Instance prog_ret : MRet prog := @Return.
#[global] Instance prog_bind : MBind prog := fun A B f p => bind p f.

(** [try { p } catch (e) { h e }] *)
Fixpoint try_catch {A : Type} (p : prog A) (h : exn -> prog A) : prog A :=
  match p with
  | Return a => Return a
  | Throw e => h e
  | Await c k => Await c (fun o => try_catch (k o) h)
  end.

(** An expression that may throw. *)
Definition lift {A : Type} (o : outcome A) : prog A :=
  match o with
  | Resolved a => Return a
  | Rejected e => Throw e
  end.

(** [await f(args)]: a rejection is thrown at the await. *)
Definition await (c : effect) : prog (answer c) := Await c lift.

(** How a [try] block inside a handler completes: it falls through to the
    code after it with the variables it assigned, or it leaves the handler
    with a [return]. *)
Inductive completion (A : Type) : Type :=
| Normal (a : A)
| Returns (r : Response).
Arguments Normal {A} a.
Arguments Returns {A} r.

(** ** The handlers *)

(** [GET /script]: the scripts of the authenticated customer. *)
Definition get_script (request : IRequest) : prog Response :=
  scripts ← await (GetScriptsByTags [(customer_id (customer request), true)]);
  mret (JsonResponse (VArr (VStr <$> scripts)) None).

Section Dispatch.

(** [handleDispatchError] of [./router]: it turns whatever was thrown
    into a response. *)
Variable handleDispatchError : exn -> Response.

(** [GET /dispatch/:name].  The whole body is inside a [try]; the
    promise of [worker.fetch] has its own [.catch]. *)
Definition get_dispatch (request : IRequest) : prog Response :=
  try_catch
    (let scriptName := params_name request in
     limitRows ← await (GetDispatchLimitFromScript scriptName);
     dispatchLimits ← lift (get limitRows "results");
     outboundRows ← await (GetOutboundWorkerFromScript scriptName);
     outboundWorker ← lift (get outboundRows "results");
     let workerArgs : list (string * value) := [] in
     worker ← await (dispatcher_get scriptName workerArgs
                       [("limits", dispatchLimits)]);
     Await (worker_fetch worker request)
       (fun o => match o with
                 | Resolved r => Return (Forward r)
                 | Rejected e => Return (handleDispatchError e)
                 end))
    (fun e => Return (handleDispatchError e)).

End Dispatch.

Definition reserved_message : string := "Script name already reserved".
Definition store_message : string := "Could not complete request".
Definition expected_message : string :=
  "Expected json: { script: string, dispatch_config: { limits?: { cpuMs: number, memory: number }, outbound: string }}".

(** The first [try] of the upload: the name is checked against the tags
    it already carries. *)
Definition check_ownership (request : IRequest) : prog (completion unit) :=
  try_catch
    (tags ← await (GetTagsOnScript (params_name request));
     if bool_decide (0 < length tags)%nat
        && negb (includes tags (customer_id (customer request)))
     then mret (Returns (ApiResponse reserved_message 409))
     else mret (Normal tt))
    (fun _ => mret (Returns (ApiResponse store_message 500))).

(** The second [try]: [scriptContent] and [limits] are read from the
    body. *)
Definition read_body (request : IRequest)
  : prog (completion (value * list (string * value))) :=
  try_catch
    (data ← lift (json request);
     scriptContent ← lift (get data "script");
     dispatch_config ← lift (get data "dispatch_config");
     limits ← lift (get dispatch_config "limits");
     mret (Normal (scriptContent,
                   spread [("script_id", VStr (params_name request))] limits)))
    (fun _ => mret (Returns (ApiResponse expected_message 400))).

(** [limits.cpuMs || limits.memory], as a condition. *)
Definition limits_given (limits : list (string * value)) : bool :=
  truthy (prop limits "cpuMs") || truthy (prop limits "memory").

(** [if (limits.cpuMs || limits.memory) await AddDispatchLimits(...)] *)
Definition persist_limits (limits : list (string * value)) : prog unit :=
  if limits_given limits then await (AddDispatchLimits limits) else mret tt.

(** The script is tagged with the id and the plan of the customer; a
    tagging response that is not [ok] is logged. *)
Definition tag_script (request : IRequest) : prog unit :=
  tagsResponse ← await (PutTagsOnScript (params_name request)
                          [customer_id (customer request);
                           customer_plan_type (customer request)]);
  if negb (ok tagsResponse)
  then text ← lift (response_text tagsResponse);
       Await (console_log [LogStr (response_url tagsResponse);
                           LogNum (status tagsResponse);
                           LogStr text])
         (fun _ => Return tt)
  else mret tt.

(** The rest of the upload: the script is put in the namespace, the
    limits are stored, the script is tagged. *)
Definition store_script (request : IRequest) (scriptContent : value)
    (limits : list (string * value)) : prog Response :=
  scriptResponse ← await (PutScriptInDispatchNamespace (params_name request)
                            scriptContent);
  if negb (ok scriptResponse)
  then diagnostic ← lift (response_json scriptResponse);
       mret (JsonResponse diagnostic (Some 400))
  else
    _ ← persist_limits limits;
    _ ← tag_script request;
    mret (ApiResponse "Success" 201).

(** [PUT /script/:name] *)
Definition put_script (request : IRequest) : prog Response :=
  owned ← check_ownership request;
  match owned with
  | Returns r => mret r
  | Normal _ =>
      body ← read_body request;
      match body with
      | Returns r => mret r
      | Normal (scriptContent, limits) =>
          store_script request scriptContent limits
      end
  end.

(** What the second [try] of the upload leaves: the script content and
    the limits object, or the 400 response. *)
Definition body_of (request : IRequest)
  : completion (value * list (string * value)) :=
  match json request with
  | Resolved data =>
      match get data "script", get data "dispatch_config" with
      | Resolved scriptContent, Resolved dispatch_config =>
          match get dispatch_config "limits" with
          | Resolved limits =>
              Normal (scriptContent,
                      spread [("script_id", VStr (params_name request))] limits)
          | Rejected _ => Returns (ApiResponse expected_message 400)
          end
      | _, _ => Returns (ApiResponse expected_message 400)
      end
  | Rejected _ => Returns (ApiResponse expected_message 400)
  end.

(** ** Running a handler *)

(** The world outside the handler: each call is answered, and may change
    the state of the world. *)
Record environment (W : Type) : Type := {
  respond : forall c : effect, W -> outcome (answer c) * W
}.
Arguments respond {W} _ c _.

(** A call together with how it settled. *)
Inductive event : Type :=
| Ev (c : effect) (o : outcome (answer c)).

Definition call_of (e : event) : effect :=
  match e with Ev c _ => c end.

(** What the caller of a handler gets: what the handler returned, or
    the exception it let escape. *)
Inductive result (R : Type) : Type :=
| Responded (r : R)
| Fault (e : exn).
Arguments Responded {R} r.
Arguments Fault {R} e.

Fixpoint run {W R : Type} (env : environment W) (p : prog R) (w : W)
  : list event * result R * W :=
  match p with
  | Return r => ([], Responded r, w)
  | Throw e => ([], Fault e, w)
  | Await c k =>
      let '(o, w1) := respond env c w in
      let '(t, r, w2) := run env (k o) w1 in
      (Ev c o :: t, r, w2)
  end.

(** The calls of a run, in order. *)
Definition calls (t : list event) : list effect := call_of <$> t.

(** The rows handed to [AddDispatchLimits] during a run. *)
Definition persisted_limits (t : list event) : list (list (string * value)) :=
  omap (fun e => match call_of e with
                 | AddDispatchLimits limits => Some limits
                 | _ => None
                 end) t.

(** How the platform answered the upload of the script body, if it was
    asked. *)
Fixpoint upload_verdict (t : list event) : option (outcome FetchResponse) :=
  match t with
  | [] => None
  | Ev c o :: rest =>
      match c return outcome (answer c) -> option (outcome FetchResponse) with
      | PutScriptInDispatchNamespace _ _ => fun o => Some o
      | _ => fun _ => upload_verdict rest
      end o
  end.

(** How the tagging call was answered, if it was made. *)
Fixpoint tagging_verdict (t : list event) : option (outcome FetchResponse) :=
  match t with
  | [] => None
  | Ev c o :: rest =>
      match c return outcome (answer c) -> option (outcome FetchResponse) with
      | PutTagsOnScript _ _ => fun o => Some o
      | _ => fun _ => tagging_verdict rest
      end o
  end.

(** How the tag lookup was answered, if it was made. *)
Fixpoint lookup_verdict (t : list event) : option (outcome (list string)) :=
  match t with
  | [] => None
  | Ev c o :: rest =>
      match c return outcome (answer c) -> option (outcome (list string)) with
      | GetTagsOnScript _ => fun o => Some o
      | _ => fun _ => lookup_verdict rest
      end o
  end.

(** The first exception an awaited call of a run was rejected with. *)
Fixpoint first_rejection (t : list event) : option exn :=
  match t with
  | [] => None
  | Ev _ (Rejected e) :: _ => Some e
  | Ev _ (Resolved _) :: rest => first_rejection rest
  end.

(** A call that, if it asks for the handle of a script, does so with
    empty worker arguments. *)
Definition empty_worker_args (c : effect) : Prop :=
  match c with
  | dispatcher_get _ workerArgs _ => workerArgs = []
  | _ => True
  end.

(** The tagging call of an upload and the line it logs on failure. *)
Definition tagging (request : IRequest) : effect :=
  PutTagsOnScript (params_name request)
    [customer_id (customer request); customer_plan_type (customer request)].

Definition tagging_log (tagsResponse : FetchResponse) (text : string) : effect :=
  console_log [LogStr (response_url tagsResponse);
               LogNum (status tagsResponse);
               LogStr text].

(** The event of a stored limits row, when the limits call for one. *)
Definition limits_event (limits : list (string * value)) (u : unit)
  : list event :=
  if limits_given limits then [Ev (AddDispatchLimits limits) (Resolved u)]
  else [].

(** The runs of [store_script], one case for each way through it: the
    calls made with their answers, and what the handler gives back. *)
Inductive stored (request : IRequest) (scriptContent : value)
    (limits : list (string * value)) : list event -> result Response -> Prop :=
| stored_unreachable (e : exn) :
    stored request scriptContent limits
      [Ev (PutScriptInDispatchNamespace (params_name request) scriptContent)
          (Rejected e)]
      (Fault e)
| stored_refused (scriptResponse : FetchResponse) :
    ok scriptResponse = false ->
    stored request scriptContent limits
      [Ev (PutScriptInDispatchNamespace (params_name request) scriptContent)
          (Resolved scriptResponse)]
      match response_json scriptResponse with
      | Resolved diagnostic => Responded (JsonResponse diagnostic (Some 400))
      | Rejected e => Fault e
      end
| stored_limits_failed (scriptResponse : FetchResponse) (e : exn) :
    ok scriptResponse = true ->
    limits_given limits = true ->
    stored request scriptContent limits
      [Ev (PutScriptInDispatchNamespace (params_name request) scriptContent)
          (Resolved scriptResponse);
       Ev (AddDispatchLimits limits) (Rejected e)]
      (Fault e)
| stored_tagging_unreachable (scriptResponse : FetchResponse) (u : unit)
    (e : exn) :
    ok scriptResponse = true ->
    stored request scriptContent limits
      (Ev (PutScriptInDispatchNamespace (params_name request) scriptContent)
          (Resolved scriptResponse)
       :: limits_event limits u ++ [Ev (tagging request) (Rejected e)])%list
      (Fault e)
| stored_tagged (scriptResponse : FetchResponse) (u : unit)
    (tagsResponse : FetchResponse) :
    ok scriptResponse = true ->
    ok tagsResponse = true ->
    stored request scriptContent limits
      (Ev (PutScriptInDispatchNamespace (params_name request) scriptContent)
          (Resolved scriptResponse)
       :: limits_event limits u ++ [Ev (tagging request) (Resolved tagsResponse)])%list
      (Responded (ApiResponse "Success" 201))
| stored_unlogged (scriptResponse : FetchResponse) (u : unit)
    (tagsResponse : FetchResponse) (e : exn) :
    ok scriptResponse = true ->
    ok tagsResponse = false ->
    response_text tagsResponse = Rejected e ->
    stored request scriptContent limits
      (Ev (PutScriptInDispatchNamespace (params_name request) scriptContent)
          (Resolved scriptResponse)
       :: limits_event limits u ++ [Ev (tagging request) (Resolved tagsResponse)])%list
      (Fault e)
| stored_untagged (scriptResponse : FetchResponse) (u : unit)
    (tagsResponse : FetchResponse) (text : string) (o : outcome unit) :
    ok scriptResponse = true ->
    ok tagsResponse = false ->
    response_text tagsResponse = Resolved text ->
    stored request scriptContent limits
      (Ev (PutScriptInDispatchNamespace (params_name request) scriptContent)
          (Resolved scriptResponse)
       :: limits_event limits u
          ++ [Ev (tagging request) (Resolved tagsResponse);
              Ev (tagging_log tagsResponse text) o])%list
      (Responded (ApiResponse "Success" 201)).

(** The runs of [put_script]: the request ends at the tag lookup, at the
    ownership check or at the body, or it goes on to [store_script]. *)
Inductive uploaded (request : IRequest) : list event -> result Response -> Prop :=
| uploaded_lookup_failed (e : exn) :
    uploaded request
      [Ev (GetTagsOnScript (params_name request)) (Rejected e)]
      (Responded (ApiResponse store_message 500))
| uploaded_reserved (tags : list string) :
    tags ≠ [] ->
    customer_id (customer request) ∉ tags ->
    uploaded request
      [Ev (GetTagsOnScript (params_name request)) (Resolved tags)]
      (Responded (ApiResponse reserved_message 409))
| uploaded_bad_body (tags : list string) :
    tags = [] ∨ customer_id (customer request) ∈ tags ->
    body_of request = Returns (ApiResponse expected_message 400) ->
    uploaded request
      [Ev (GetTagsOnScript (params_name request)) (Resolved tags)]
      (Responded (ApiResponse expected_message 400))
| uploaded_stored (tags : list string) (scriptContent : value)
    (limits : list (string * value)) (t : list event) (r : result Response) :
    tags = [] ∨ customer_id (customer request) ∈ tags ->
    body_of request = Normal (scriptContent, limits) ->
    stored request scriptContent limits t r ->
    uploaded request
      (Ev (GetTagsOnScript (params_name request)) (Resolved tags) :: t) r.

(** ** Environments *)

(** An environment without state: every call is answered by a fixed
    table. *)
Definition scripted (table : forall c : effect, outcome (answer c))
  : environment unit :=
  {| respond := fun c _ => (table c, tt) |}.

(** [env], except that the query for the outbound worker of a script
    resolves to [rows]. *)
Definition with_outbound_rows {W : Type} (env : environment W) (rows : value)
  : environment W :=
  {| respond := fun c =>
       match c return W -> outcome (answer c) * W with
       | GetOutboundWorkerFromScript scriptName =>
           fun w => (Resolved rows,
                     snd (respond env (GetOutboundWorkerFromScript scriptName) w))
       | c' => respond env c'
       end |}.

(** A response of the platform's API that reports success. *)
Definition accepted : FetchResponse :=
  {| ok := true; status := 200; response_url := "";
     response_text := Resolved "";
     response_json := Resolved (VObj [("success", VBool true)]) |}.

(** A response of the platform's API that reports a failure, with the
    platform's diagnostic as its body. *)
Definition refused (diagnostic : value) : FetchResponse :=
  {| ok := false; status := 400; response_url := "";
     response_text := Resolved "";
     response_json := Resolved diagnostic |}.

(** The dispatch namespace and the store behind the adapters. *)
Record World : Type := {
  scripts : gmap string value;
  script_tags : gmap string (list string);
  dispatch_limits : gmap string (list (string * value));
  outbound_workers : gmap string (list (string * value));
  console : list (list loggable)
}.

Definition empty_world : World :=
  {| scripts := ∅; script_tags := ∅; dispatch_limits := ∅;
     outbound_workers := ∅; console := [] |}.

(** A tag filter entry [{ tag, allow }] holds of a tag list when the tag
    is there exactly if it is allowed. *)
Definition matches (filter : list (string * bool)) (tags : list string) : bool :=
  forallb (fun f => Bool.eqb (includes tags (fst f)) (snd f)) filter.

(** Modelled from the spec: [GetScriptsByTags] of [./resource], which is
    not among the sources.  The tag index is a relation between script
    names and tags; the query returns the names of the scripts whose tags
    satisfy the filter. *)
Definition scripts_by_tags (w : World) (filter : list (string * bool))
  : list string :=
  omap (fun entry => if matches filter (snd entry) then Some (fst entry) else None)
       (map_to_list (script_tags w)).

(** Modelled from the spec: [GetTagsOnScript] of [./resource].  A script
    without an entry in the tag index has no tags. *)
Definition tags_on_script (w : World) (scriptName : string) : list string :=
  default [] (script_tags w !! scriptName).

(** Modelled from the spec: [PutScriptInDispatchNamespace] of
    [./resource], an idempotent create-or-replace of the body stored under
    the name. *)
Definition put_script_in_namespace (w : World) (scriptName : string)
    (scriptContent : value) : World :=
  {| scripts := <[scriptName := scriptContent]> (scripts w);
     script_tags := script_tags w;
     dispatch_limits := dispatch_limits w;
     outbound_workers := outbound_workers w;
     console := console w |}.

(** Modelled from the spec: [PutTagsOnScript] of [./resource]; tagging is
    additive and removes no earlier tag. *)
Definition put_tags_on_script (w : World) (scriptName : string)
    (tags : list string) : World :=
  {| scripts := scripts w;
     script_tags := <[scriptName := (tags_on_script w scriptName ++ tags)%list]> (script_tags w);
     dispatch_limits := dispatch_limits w;
     outbound_workers := outbound_workers w;
     console := console w |}.

(** Modelled from the spec: [AddDispatchLimits] of [./db]; one row per
    script, with the script id as primary key.  The statement fails when
    the row has no string for its key. *)
Definition add_dispatch_limits (w : World) (limits : list (string * value))
  : outcome unit * World :=
  match prop limits "script_id" with
  | VStr script_id =>
      (Resolved tt,
       {| scripts := scripts w;
          script_tags := script_tags w;
          dispatch_limits := <[script_id := limits]> (dispatch_limits w);
          outbound_workers := outbound_workers w;
          console := console w |})
  | _ => (Rejected (Failure "dispatch_limits: script_id"), w)
  end.

(** Modelled from the spec: the queries of [./db] answer with the rows
    found under the script id; no row is not an error. *)
Definition rows_of (table : gmap string (list (string * value)))
    (scriptName : string) : value :=
  VObj [("results",
         match table !! scriptName with
         | Some row => VArr [VObj row]
         | None => VArr []
         end)].

Definition log_to_console (w : World) (args : list loggable) : World :=
  {| scripts := scripts w;
     script_tags := script_tags w;
     dispatch_limits := dispatch_limits w;
     outbound_workers := outbound_workers w;
     console := (console w ++ [args])%list |}.

Section Registry.

(** What running a stored script on a request gives; the execution
    platform is outside this development. *)
Variable execute : value -> IRequest -> outcome FetchResponse.

(** Modelled from the spec: the adapters of [./db] and [./resource] and
    the dispatcher binding over a [World] in which the store and the
    platform are reachable and the platform accepts every script. *)
Definition registry : environment World :=
  {| respond := fun c =>
       match c return World -> outcome (answer c) * World with
       | GetScriptsByTags filter => fun w => (Resolved (scripts_by_tags w filter), w)
       | GetTagsOnScript scriptName => fun w => (Resolved (tags_on_script w scriptName), w)
       | PutScriptInDispatchNamespace scriptName scriptContent =>
           fun w => (Resolved accepted, put_script_in_namespace w scriptName scriptContent)
       | PutTagsOnScript scriptName tags =>
           fun w => (Resolved accepted, put_tags_on_script w scriptName tags)
       | AddDispatchLimits limits => fun w => add_dispatch_limits w limits
       | GetDispatchLimitFromScript scriptName =>
           fun w => (Resolved (rows_of (dispatch_limits w) scriptName), w)
       | GetOutboundWorkerFromScript scriptName =>
           fun w => (Resolved (rows_of (outbound_workers w) scriptName), w)
       | dispatcher_get scriptName workerArgs options =>
           fun w => (Resolved {| worker_name := scriptName;
                                 worker_args := workerArgs;
                                 worker_options := options |}, w)
       | worker_fetch worker request =>
           fun w => (match scripts w !! worker_name worker with
                     | Some body => execute body request
                     | None => Rejected (Failure "Worker not found")
                     end, w)
       | console_log args => fun w => (Resolved tt, log_to_console w args)
       end |}.

End Registry.

(** ** Sample data *)

Definition alice : Customer :=
  {| customer_id := "alice"; customer_plan_type := "basic" |}.

Definition bob : Customer :=
  {| customer_id := "bob"; customer_plan_type := "pro" |}.

(** An upload of [body] under the name [hello] by [who]. *)
Definition upload_request (who : Customer) (body : value) : IRequest :=
  {| url := "https://gateway.example/script/hello";
     params_name := "hello";
     customer := who;
     json := Resolved body |}.

(** A dispatch of the name [hello]. *)
Definition dispatch_request : IRequest :=
  {| url := "https://gateway.example/dispatch/hello";
     params_name := "hello";
     customer := alice;
     json := Rejected (SyntaxError "Unexpected end of JSON input") |}.

Definition sample_script : value :=
  VStr "export default { fetch() { return new Response('hi') } }".

Definition body_with_limits (limits : value) : value :=
  VObj [("script", sample_script);
        ("dispatch_config", VObj [("limits", limits)])].

(** [{ script, dispatch_config: { limits: { cpuMs: 50 } } }] *)
Definition body_cpu_50 : value :=
  body_with_limits (VObj [("cpuMs", VNum 50%float)]).

(** [{ cpuMs: 0, memory: 0 }] *)
Definition zero_limits : value :=
  VObj [("cpuMs", VNum 0%float); ("memory", VNum 0%float)].

(** [{ script, dispatch_config: { limits: { cpuMs: 0, memory: 0 } } }] *)
Definition body_zero_limits : value := body_with_limits zero_limits.

(** [{ script, dispatch_config: {} }] *)
Definition body_no_limits : value :=
  VObj [("script", sample_script); ("dispatch_config", VObj [])].

(** [{ dispatch_config: {} }]: no [script]. *)
Definition body_without_script : value :=
  VObj [("dispatch_config", VObj [])].

(** [{ script }]: no [dispatch_config]. *)
Definition body_without_dispatch_config : value :=
  VObj [("script", VStr "export default {}")].

(** A stored script answers every request with its own text. *)
Definition echo (body : value) (request : IRequest) : outcome FetchResponse :=
  Resolved {| ok := true; status := 200; response_url := url request;
              response_text := Resolved match body with VStr s => s | _ => "" end;
              response_json := Rejected (SyntaxError "Unexpected token") |}.

(** A world in which [bob] has uploaded [hello]. *)
Definition bobs_world : World :=
  put_tags_on_script
    (put_script_in_namespace empty_world "hello" (VStr "export default {}"))
    "hello" ["bob"; "pro"].

(** The store cannot be reached: every call is rejected. *)
Definition unreachable (c : effect) : outcome (answer c) :=
  Rejected (Failure "fetch failed").

(** The name is free, the platform refuses the script with a diagnostic,
    everything else is accepted. *)
Definition refusing (diagnostic : value) (c : effect) : outcome (answer c) :=
  match c return outcome (answer c) with
  | GetTagsOnScript _ => Resolved []
  | PutScriptInDispatchNamespace _ _ => Resolved (refused diagnostic)
  | PutTagsOnScript _ _ => Resolved accepted
  | AddDispatchLimits _ => Resolved tt
  | console_log _ => Resolved tt
  | _ => Rejected (Failure "not used")
  end.



Definition syntax_diagnostic : value :=
  VObj [("success", VBool false);
        ("errors", VArr [VObj [("message", VStr "Uncaught SyntaxError")]])].

(** ** More to observe in a run *)

(** How [AddDispatchLimits] was answered, if it was called. *)
Fixpoint limits_verdict (t : list event) : option (outcome unit) :=
  match t with
  | [] => None
  | Ev c o :: rest =>
      match c return outcome (answer c) -> option (outcome unit) with
      | AddDispatchLimits _ => fun o => Some o
      | _ => fun _ => limits_verdict rest
      end o
  end.

(** How the query for the dispatch limits of a script was answered. *)
Fixpoint limits_rows (t : list event) : option (outcome value) :=
  match t with
  | [] => None
  | Ev c o :: rest =>
      match c return outcome (answer c) -> option (outcome value) with
      | GetDispatchLimitFromScript _ => fun o => Some o
      | _ => fun _ => limits_rows rest
      end o
  end.

(** How the query for the outbound worker of a script was answered. *)
Fixpoint outbound_rows (t : list event) : option (outcome value) :=
  match t with
  | [] => None
  | Ev c o :: rest =>
      match c return outcome (answer c) -> option (outcome value) with
      | GetOutboundWorkerFromScript _ => fun o => Some o
      | _ => fun _ => outbound_rows rest
      end o
  end.

(** The arguments [env.dispatcher.get] was called with, and its answer. *)
Fixpoint handle_request (t : list event)
  : option (string * list (string * value) * list (string * value)
            * outcome Worker) :=
  match t with
  | [] => None
  | Ev c o :: rest =>
      match c return outcome (answer c) -> _ with
      | dispatcher_get scriptName workerArgs options =>
          fun o => Some (scriptName, workerArgs, options, o)
      | _ => fun _ => handle_request rest
      end o
  end.

(** The handle and the request of the [fetch] of a run, and how it
    settled. *)
Fixpoint fetched (t : list event)
  : option (Worker * IRequest * outcome FetchResponse) :=
  match t with
  | [] => None
  | Ev c o :: rest =>
      match c return outcome (answer c) -> _ with
      | worker_fetch worker request => fun o => Some (worker, request, o)
      | _ => fun _ => fetched rest
      end o
  end.

(** The runs of [get_dispatch], one case for each place where it can
    end. *)
Inductive dispatched (handleDispatchError : exn -> Response)
    (request : IRequest) : list event -> result Response -> Prop :=
| dispatched_limits_rejected (e : exn) :
    dispatched handleDispatchError request
      [Ev (GetDispatchLimitFromScript (params_name request)) (Rejected e)]
      (Responded (handleDispatchError e))
| dispatched_limits_unreadable (limitRows : value) (e : exn) :
    get limitRows "results" = Rejected e ->
    dispatched handleDispatchError request
      [Ev (GetDispatchLimitFromScript (params_name request)) (Resolved limitRows)]
      (Responded (handleDispatchError e))
| dispatched_outbound_rejected (limitRows dispatchLimits : value) (e : exn) :
    get limitRows "results" = Resolved dispatchLimits ->
    dispatched handleDispatchError request
      [Ev (GetDispatchLimitFromScript (params_name request)) (Resolved limitRows);
       Ev (GetOutboundWorkerFromScript (params_name request)) (Rejected e)]
      (Responded (handleDispatchError e))
| dispatched_outbound_unreadable (limitRows dispatchLimits outboundRows : value)
    (e : exn) :
    get limitRows "results" = Resolved dispatchLimits ->
    get outboundRows "results" = Rejected e ->
    dispatched handleDispatchError request
      [Ev (GetDispatchLimitFromScript (params_name request)) (Resolved limitRows);
       Ev (GetOutboundWorkerFromScript (params_name request))
          (Resolved outboundRows)]
      (Responded (handleDispatchError e))
| dispatched_handle_rejected
    (limitRows dispatchLimits outboundRows outboundWorker : value) (e : exn) :
    get limitRows "results" = Resolved dispatchLimits ->
    get outboundRows "results" = Resolved outboundWorker ->
    dispatched handleDispatchError request
      [Ev (GetDispatchLimitFromScript (params_name request)) (Resolved limitRows);
       Ev (GetOutboundWorkerFromScript (params_name request))
          (Resolved outboundRows);
       Ev (dispatcher_get (params_name request) [] [("limits", dispatchLimits)])
          (Rejected e)]
      (Responded (handleDispatchError e))
| dispatched_fetch
    (limitRows dispatchLimits outboundRows outboundWorker : value)
    (worker : Worker) (o : outcome FetchResponse) :
    get limitRows "results" = Resolved dispatchLimits ->
    get outboundRows "results" = Resolved outboundWorker ->
    dispatched handleDispatchError request
      [Ev (GetDispatchLimitFromScript (params_name request)) (Resolved limitRows);
       Ev (GetOutboundWorkerFromScript (params_name request))
          (Resolved outboundRows);
       Ev (dispatcher_get (params_name request) [] [("limits", dispatchLimits)])
          (Resolved worker);
       Ev (worker_fetch worker request) o]
      (Responded match o with
                 | Resolved scriptResponse => Forward scriptResponse
                 | Rejected e => handleDispatchError e
                 end).

(** An upload whose body is not JSON. *)
Definition unreadable_request : IRequest :=
  {| url := "https://gateway.example/script/hello";
     params_name := "hello";
     customer := alice;
     json := Rejected (SyntaxError "Unexpected token") |}.

(** [{ script, dispatch_config: { limits: { script_id: "other", cpuMs: 50 } } }] *)
Definition body_renaming_row : value :=
  body_with_limits (VObj [("script_id", VStr "other"); ("cpuMs", VNum 50%float)]).

(** The name is free and the script is accepted, but the store refuses
    the limits row. *)
Definition store_down (c : effect) : outcome (answer c) :=
  match c return outcome (answer c) with
  | GetTagsOnScript _ => Resolved []
  | PutScriptInDispatchNamespace _ _ => Resolved accepted
  | PutTagsOnScript _ _ => Resolved accepted
  | console_log _ => Resolved tt
  | _ => Rejected (Failure "D1_ERROR")
  end.

(** The queries of the store answer [null]. *)
Definition null_rows (c : effect) : outcome (answer c) :=
  match c return outcome (answer c) with
  | GetDispatchLimitFromScript _ => Resolved (VObj [("results", VArr [])])
  | GetOutboundWorkerFromScript _ => Resolved VNull
  | _ => Rejected (Failure "not used")
  end.

(** What [handleDispatchError] is taken to be in the examples. *)
Definition sample_translation (e : exn) : Response :=
  match e with
  | Failure "Worker not found" => ApiResponse "Script does not exist" 404
  | _ => ApiResponse "Could not connect to script" 500
  end.

(** ** The pages: calls *)

(** The functions of [./db] and [./resource] that the pages [GET /] and
    [GET /init] call, and the [console.log] of [GET /]. *)
Inductive admin_call : Type :=
| FetchTable (table : string)
| GetScriptsInDispatchNamespace
| DeleteScriptInDispatchNamespace (id : value)
| Initialize
| page_log (args : list loggable).

(** The result of a deletion and of [Initialize] is not used by the
    handlers. *)
Definition admin_answer (c : admin_call) : Type :=
  match c with
  | FetchTable _ => value
  | GetScriptsInDispatchNamespace => list value
  | DeleteScriptInDispatchNamespace _ => unit
  | Initialize => unit
  | page_log _ => unit
  end.

(** The calls that change the dispatch namespace or the store. *)
Definition admin_is_write (c : admin_call) : bool :=
  match c with
  | DeleteScriptInDispatchNamespace _ | Initialize => true
  | _ => false
  end.

(** The body of a page handler, as [prog] is the body of the others. *)
Inductive admin (R : Type) : Type :=
| Finish (r : R)
| Raise (e : exn)
| Ask (c : admin_call) (k : outcome (admin_answer c) -> admin R).
Arguments Finish {R} r.
Arguments Raise {R} e.
Arguments Ask {R} c k.

Fixpoint admin_bind {A B : Type} (p : admin A) (f : A -> admin B) : admin B :=
  match p with
  | Finish a => f a
  | Raise e => Raise e
  | Ask c k => Ask c (fun o => admin_bind (k o) f)
  end.

#[global] Instance admin_ret : MRet admin := @Finish.
#[global] Instance admin_mbind : MBind admin := fun A B f p => admin_bind p f.

(** [try { p } catch (e) { h e }] *)
Fixpoint admin_try {A : Type} (p : admin A) (h : exn -> admin A) : admin A :=
  match p with
  | Finish a => Finish a
  | Raise e => h e
  | Ask c k => Ask c (fun o => admin_try (k o) h)
  end.

Definition admin_lift {A : Type} (o : outcome A) : admin A :=
  match o with
  | Resolved a => Finish a
  | Rejected e => Raise e
  end.

(** [await f(args)] *)
Definition ask (c : admin_call) : admin (admin_answer c) := Ask c admin_lift.

(** What a page handler answers: [HtmlResponse] of [./router], or
    [Response.redirect], whose status is 302. *)
Inductive PageResponse : Type :=
| HtmlResponse (body : string)
| Redirect (location : string).

Record admin_environment (W : Type) : Type := {
  admin_respond : forall c : admin_call, W -> outcome (admin_answer c) * W
}.
Arguments admin_respond {W} _ c _.

Inductive admin_event : Type :=
| AdminEv (c : admin_call) (o : outcome (admin_answer c)).

Definition admin_call_of (e : admin_event) : admin_call :=
  match e with AdminEv c _ => c end.

Definition admin_calls (t : list admin_event) : list admin_call :=
  admin_call_of <$> t.

Fixpoint admin_run {W R : Type} (env : admin_environment W) (p : admin R)
    (w : W) : list admin_event * result R * W :=
  match p with
  | Finish r => ([], Responded r, w)
  | Raise e => ([], Fault e, w)
  | Ask c k =>
      let '(o, w1) := admin_respond env c w in
      let '(t, r, w2) := admin_run env (k o) w1 in
      (AdminEv c o :: t, r, w2)
  end.

(** The tables asked for in a run, each with how the query settled. *)
Fixpoint tables_fetched (t : list admin_event)
  : list (string * outcome value) :=
  match t with
  | [] => []
  | AdminEv c o :: rest =>
      match c return outcome (admin_answer c) -> list (string * outcome value) with
      | FetchTable table => fun o => (table, o) :: tables_fetched rest
      | _ => fun _ => tables_fetched rest
      end o
  end.

(** How the listing of the namespace was answered, if it was asked. *)
Fixpoint listing (t : list admin_event) : option (outcome (list value)) :=
  match t with
  | [] => None
  | AdminEv c o :: rest =>
      match c return outcome (admin_answer c) -> option (outcome (list value)) with
      | GetScriptsInDispatchNamespace => fun o => Some o
      | _ => fun _ => listing rest
      end o
  end.

(** The ids deletions were asked for in a run, each with how the deletion
    settled. *)
Fixpoint deletions (t : list admin_event) : list (value * outcome unit) :=
  match t with
  | [] => []
  | AdminEv c o :: rest =>
      match c return outcome (admin_answer c) -> list (value * outcome unit) with
      | DeleteScriptInDispatchNamespace id => fun o => (id, o) :: deletions rest
      | _ => fun _ => deletions rest
      end o
  end.

(** How [Initialize] was answered, if it was called. *)
Fixpoint initialization (t : list admin_event) : option (outcome unit) :=
  match t with
  | [] => None
  | AdminEv c o :: rest =>
      match c return outcome (admin_answer c) -> option (outcome unit) with
      | Initialize => fun o => Some o
      | _ => fun _ => initialization rest
      end o
  end.

(** The lines logged in a run. *)
Definition logged (t : list admin_event) : list (list loggable) :=
  omap (fun e => match admin_call_of e with
                 | page_log args => Some args
                 | _ => None
                 end) t.

(** ** The pages: strings *)

Definition dq : string := String (Ascii.ascii_of_nat 34) EmptyString.
Definition nl : string := String (Ascii.ascii_of_nat 10) EmptyString.

(** The template literal [body] starts with. *)
Definition page_header : string :=
  nl ++ "      <hr class=" ++ dq ++ "solid" ++ dq ++ "><br/>"
  ++ nl ++ "      <div>"
  ++ nl ++ "        <form style=" ++ dq ++ "display: inline" ++ dq
  ++ " action=" ++ dq ++ "/init" ++ dq ++ "><input type=" ++ dq ++ "submit" ++ dq
  ++ " value=" ++ dq ++ "Initialize" ++ dq ++ " /></form>"
  ++ nl ++ "        <small> - Resets db and dispatch namespace to initial state</small>"
  ++ nl ++ "      </div>"
  ++ nl ++ "      <h2>DB Tables</h2>".

Definition no_db_message : string :=
  "<div>No DB data. Do you need to <a href=" ++ dq ++ "/init" ++ dq
  ++ ">initialize</a>?</div>".

Definition namespace_heading : string := "</br><h2>Dispatch Namespace</h2>".

Definition not_found_message (name : string) : string :=
  "<div>Dispatch namespace " ++ dq ++ name ++ dq ++ " was not found.</div>".

Fixpoint skip (n : nat) (s : string) : string :=
  match n, s with
  | O, _ => s
  | S _, EmptyString => EmptyString
  | S n', String _ rest => skip n' rest
  end.

(** [s.replace(pattern, replacement)] for a string pattern and a
    replacement without [$]: the first occurrence is replaced, and a string
    without an occurrence is returned as it is. *)
Fixpoint replace_first (pattern replacement s : string) : string :=
  if String.prefix pattern s
  then replacement ++ skip (String.length pattern) s
  else match s with
       | EmptyString => EmptyString
       | String a rest => String a (replace_first pattern replacement rest)
       end.

(** [e == null]: the rejection is [null] or [undefined]. *)
Definition nullish (e : exn) : bool :=
  match e with
  | Thrown VUndefined | Thrown VNull => true
  | _ => false
  end.

(** ** The pages: handlers *)

Section Pages.

(** [BuildTable] of [./render], which may throw. *)
Variable BuildTable : string -> value -> outcome string.

(** [DISPATCH_NAMESPACE_NAME] of [./env]. *)
Variable DISPATCH_NAMESPACE_NAME : string.

(** [JSON.stringify(e, Object.getOwnPropertyNames(e))] for an [e] that is
    neither [null] nor [undefined]; it throws on what cannot be serialized
    (a cycle, a [BigInt]). *)
Variable stringify : exn -> outcome string.

(** Which rejected promise [Promise.all] reports, as a position in the
    list of the rejections taken in the order of the scripts: the one that
    settled first. *)
Variable first_settled : list exn -> nat.

(** The url parser of [Response.redirect]: the serialized url, or the
    [TypeError] for a string that does not parse. *)
Variable href : string -> outcome string.

(** The argument of [console.log] in the second [catch] of [GET /]:
    [Object.getOwnPropertyNames] throws on [null] and [undefined]. *)
Definition log_text (e : exn) : outcome string :=
  if nullish e
  then Rejected (TypeError "Cannot convert undefined or null to object")
  else stringify e.

(** The array of the first [try] of [GET /], joined: the two tables, one
    query after the other. *)
Definition db_tables : admin string :=
  customers ← ask (FetchTable "customers");
  customers_table ← admin_lift (BuildTable "customers" customers);
  customer_tokens ← ask (FetchTable "customer_tokens");
  customer_tokens_table ← admin_lift (BuildTable "customer_tokens" customer_tokens);
  mret (customers_table ++ customer_tokens_table).

(** The [catch] of the second [try] of [GET /]: what the argument of
    [console.log] throws escapes the handler, before anything is logged or
    added to the page. *)
Definition namespace_not_found (body : string) (e : exn) : admin string :=
  text ← admin_lift (log_text e);
  Ask (page_log [LogStr text])
    (fun _ => Finish (body ++ not_found_message DISPATCH_NAMESPACE_NAME)).

(** The second [try] of [GET /]: [body] has the heading already when
    [BuildTable] throws. *)
Definition namespace_section (body : string) : admin string :=
  Ask GetScriptsInDispatchNamespace
    (fun o =>
       match o with
       | Resolved scripts =>
           match BuildTable DISPATCH_NAMESPACE_NAME (VArr scripts) with
           | Resolved table => Finish (body ++ namespace_heading ++ table)
           | Rejected e => namespace_not_found (body ++ namespace_heading) e
           end
       | Rejected e => namespace_not_found body e
       end).

(** [GET /]: dumps the state of the app. *)
Definition index_page : admin PageResponse :=
  body ← admin_try (tables ← db_tables; mret (page_header ++ tables))
                   (fun _ => mret (page_header ++ no_db_message));
  body ← namespace_section body;
  mret (HtmlResponse body).

(** The runs of the first [try] of [GET /], with the text it adds to the
    page: both tables, or the notice. *)
Inductive store_section : list admin_event -> string -> Prop :=
| store_shown (customers customer_tokens : value)
    (customers_table customer_tokens_table : string) :
    BuildTable "customers" customers = Resolved customers_table ->
    BuildTable "customer_tokens" customer_tokens
    = Resolved customer_tokens_table ->
    store_section
      [AdminEv (FetchTable "customers") (Resolved customers);
       AdminEv (FetchTable "customer_tokens") (Resolved customer_tokens)]
      (customers_table ++ customer_tokens_table)
| store_customers_rejected (e : exn) :
    store_section [AdminEv (FetchTable "customers") (Rejected e)] no_db_message
| store_customers_unbuilt (customers : value) (e : exn) :
    BuildTable "customers" customers = Rejected e ->
    store_section [AdminEv (FetchTable "customers") (Resolved customers)]
      no_db_message
| store_tokens_rejected (customers : value) (customers_table : string)
    (e : exn) :
    BuildTable "customers" customers = Resolved customers_table ->
    store_section
      [AdminEv (FetchTable "customers") (Resolved customers);
       AdminEv (FetchTable "customer_tokens") (Rejected e)]
      no_db_message
| store_tokens_unbuilt (customers customer_tokens : value)
    (customers_table : string) (e : exn) :
    BuildTable "customers" customers = Resolved customers_table ->
    BuildTable "customer_tokens" customer_tokens = Rejected e ->
    store_section
      [AdminEv (FetchTable "customers") (Resolved customers);
       AdminEv (FetchTable "customer_tokens") (Resolved customer_tokens)]
      no_db_message.

(** The runs of the second [try] of [GET /] and of its [catch]: the text
    added to the page, or the exception thrown while the log line was
    made. *)
Inductive listed_section : list admin_event -> result string -> Prop :=
| listed_shown (scripts : list value) (table : string) :
    BuildTable DISPATCH_NAMESPACE_NAME (VArr scripts) = Resolved table ->
    listed_section [AdminEv GetScriptsInDispatchNamespace (Resolved scripts)]
      (Responded (namespace_heading ++ table))
| listed_unbuilt (scripts : list value) (e : exn) (text : string)
    (o : outcome unit) :
    BuildTable DISPATCH_NAMESPACE_NAME (VArr scripts) = Rejected e ->
    log_text e = Resolved text ->
    listed_section
      [AdminEv GetScriptsInDispatchNamespace (Resolved scripts);
       AdminEv (page_log [LogStr text]) o]
      (Responded
         (namespace_heading ++ not_found_message DISPATCH_NAMESPACE_NAME))
| listed_unbuilt_unlogged (scripts : list value) (e e' : exn) :
    BuildTable DISPATCH_NAMESPACE_NAME (VArr scripts) = Rejected e ->
    log_text e = Rejected e' ->
    listed_section [AdminEv GetScriptsInDispatchNamespace (Resolved scripts)]
      (Fault e')
| listed_rejected (e : exn) (text : string) (o : outcome unit) :
    log_text e = Resolved text ->
    listed_section
      [AdminEv GetScriptsInDispatchNamespace (Rejected e);
       AdminEv (page_log [LogStr text]) o]
      (Responded (not_found_message DISPATCH_NAMESPACE_NAME))
| listed_rejected_unlogged (e e' : exn) :
    log_text e = Rejected e' ->
    listed_section [AdminEv GetScriptsInDispatchNamespace (Rejected e)]
      (Fault e').

(** [scripts.map(async (script) => DeleteScriptInDispatchNamespace(env,
    script.id))]: a deletion is started for every script, in order; a
    script whose [id] cannot be read gives a rejected promise and no
    call. *)
Fixpoint delete_all (scripts : list value) : admin (list (outcome unit)) :=
  match scripts with
  | [] => Finish []
  | script :: rest =>
      match get script "id" with
      | Resolved id =>
          Ask (DeleteScriptInDispatchNamespace id)
            (fun o => admin_bind (delete_all rest)
                        (fun outcomes => Finish (o :: outcomes)))
      | Rejected e =>
          admin_bind (delete_all rest)
            (fun outcomes => Finish (Rejected e :: outcomes))
      end
  end.

Definition rejections (outcomes : list (outcome unit)) : list exn :=
  omap (fun o => match o with Rejected e => Some e | Resolved _ => None end)
       outcomes.

(** What [await Promise.all(promises)] throws when the rejections of the
    promises are [e :: es]: one of them, the one that settled first. *)
Definition reported (e : exn) (es : list exn) : exn :=
  nth (first_settled (e :: es)) (e :: es) e.

(** [Response.redirect(url)]: the url is parsed, a url that does not parse
    makes the call throw, and the location is the serialized url. *)
Definition redirect (url : string) : outcome PageResponse :=
  match href url with
  | Resolved location => Resolved (Redirect location)
  | Rejected e => Rejected e
  end.

(** [GET /init]: the namespace is emptied and the store is initialized. *)
Definition init_page (request : IRequest) : admin PageResponse :=
  scripts ← ask GetScriptsInDispatchNamespace;
  outcomes ← delete_all scripts;
  match rejections outcomes with
  | [] =>
      _ ← ask Initialize;
      admin_lift (redirect (replace_first "/init" "" (url request)))
  | e :: es => Raise (reported e es)
  end.

End Pages.

Arguments log_text : simpl never.

(** How the promises of the map of [GET /init] settled, in the order of
    the scripts, given the answers to the deletions that were started: a
    script whose [id] cannot be read has the [TypeError] of the read. *)
Fixpoint promises (scripts : list value) (answers : list (outcome unit))
  : list (outcome unit) :=
  match scripts with
  | [] => []
  | script :: rest =>
      match get script "id" with
      | Rejected e => Rejected e :: promises rest answers
      | Resolved _ =>
          match answers with
          | o :: answers' => o :: promises rest answers'
          | [] => []
          end
      end
  end.

(** The ids of the scripts whose [id] can be read. *)
Definition readable_ids (scripts : list value) : list value :=
  omap (fun script => match get script "id" with
                      | Resolved id => Some id
                      | Rejected _ => None
                      end) scripts.

(** ** The pages: sample data *)

Definition sample_table (name : string) (rows : value) : outcome string :=
  Resolved ("<table id=" ++ dq ++ name ++ dq ++ "></table>").

(** What the log line is taken to be in the examples: the message of an
    error, and a fixed text for any other value. *)
Definition sample_stringify (e : exn) : outcome string :=
  match e with
  | TypeError msg | SyntaxError msg | Failure msg => Resolved msg
  | Thrown _ => Resolved "value"
  end.

(** The first of the rejections is the one reported. *)
Definition sample_first (es : list exn) : nat := 0%nat.

(** A stand-in for the url parser at the urls of the examples: a url
    without a path gets the path [/], and [https:/:8080/init] has no host. *)
Definition sample_href (s : string) : outcome string :=
  if String.eqb s "https://gateway.example"
  then Resolved "https://gateway.example/"
  else if String.eqb s "https:/:8080/init"
       then Rejected (TypeError "Invalid URL")
       else Resolved s.

(** The store is down, the namespace lists one script. *)
Definition store_offline : admin_environment unit :=
  {| admin_respond := fun c _ =>
       (match c return outcome (admin_answer c) with
        | FetchTable _ => Rejected (Failure "D1_ERROR")
        | GetScriptsInDispatchNamespace =>
            Resolved [VObj [("id", VStr "hello")]]
        | DeleteScriptInDispatchNamespace _ => Resolved tt
        | Initialize => Rejected (Failure "D1_ERROR")
        | page_log _ => Resolved tt
        end, tt) |}.

(** The store answers, the namespace cannot be listed. *)
Definition namespace_offline : admin_environment unit :=
  {| admin_respond := fun c _ =>
       (match c return outcome (admin_answer c) with
        | FetchTable _ => Resolved (VArr [])
        | GetScriptsInDispatchNamespace => Rejected (Failure "fetch failed")
        | DeleteScriptInDispatchNamespace _ => Resolved tt
        | Initialize => Resolved tt
        | page_log _ => Resolved tt
        end, tt) |}.

(** Two scripts are listed; the deletion of [first] is rejected. *)
Definition stubborn_script : admin_environment unit :=
  {| admin_respond := fun c _ =>
       (match c return outcome (admin_answer c) with
        | FetchTable _ => Resolved (VArr [])
        | GetScriptsInDispatchNamespace =>
            Resolved [VObj [("id", VStr "first")]; VObj [("id", VStr "second")]]
        | DeleteScriptInDispatchNamespace (VStr "first") =>
            Rejected (Failure "fetch failed")
        | DeleteScriptInDispatchNamespace _ => Resolved tt
        | Initialize => Resolved tt
        | page_log _ => Resolved tt
        end, tt) |}.

(** Everything answers; two scripts are listed. *)
Definition all_online : admin_environment unit :=
  {| admin_respond := fun c _ =>
       (match c return outcome (admin_answer c) with
        | FetchTable _ => Resolved (VArr [])
        | GetScriptsInDispatchNamespace =>
            Resolved [VObj [("id", VStr "first")]; VObj [("id", VStr "second")]]
        | DeleteScriptInDispatchNamespace _ => Resolved tt
        | Initialize => Resolved tt
        | page_log _ => Resolved tt
        end, tt) |}.

(** The store answers, the listing of the namespace is rejected with
    [null]. *)
Definition namespace_rejects_null : admin_environment unit :=
  {| admin_respond := fun c _ =>
       (match c return outcome (admin_answer c) with
        | FetchTable _ => Resolved (VArr [])
        | GetScriptsInDispatchNamespace => Rejected (Thrown VNull)
        | DeleteScriptInDispatchNamespace _ => Resolved tt
        | Initialize => Resolved tt
        | page_log _ => Resolved tt
        end, tt) |}.

Definition init_request : IRequest :=
  {| url := "https://gateway.example/init";
     params_name := "";
     customer := alice;
     json := Rejected (SyntaxError "Unexpected end of JSON input") |}.

(** A request to a gateway whose host is named [init]. *)
Definition init_host_request : IRequest :=
  {| url := "https://init:8080/init";
     params_name := "";
     customer := alice;
     json := Rejected (SyntaxError "Unexpected end of JSON input") |}.


(** * Properties *)

(** ** Values *)

Lemma includes_elem_of (tags : list string) (x : string) :
  includes tags x = true ↔ x ∈ tags.
Proof.
  unfold includes. rewrite existsb_exists. split.
  - intros (y & Hy & Heq). apply String.eqb_eq in Heq. subst y.
    by apply list_elem_of_In.
  - intros Hx. exists x. split; [by apply list_elem_of_In | apply String.eqb_refl].
Qed.

Lemma includes_not_elem_of (tags : list string) (x : string) :
  includes tags x = false ↔ x ∉ tags.
Proof.
  rewrite <- includes_elem_of. destruct (includes tags x); split; congruence.
Qed.

(** The test of the ownership check: the name carries tags and none is
    the customer's id. *)
Lemma reserved_test (tags : list string) (x : string) :
  bool_decide (0 < length tags)%nat && negb (includes tags x) = true
  ↔ tags ≠ [] ∧ x ∉ tags.
Proof.
  rewrite andb_true_iff, bool_decide_eq_true, negb_true_iff,
    includes_not_elem_of.
  destruct tags; simpl; split; intros [H1 H2]; split; try done; lia.
Qed.

Lemma not_reserved_test (tags : list string) (x : string) :
  bool_decide (0 < length tags)%nat && negb (includes tags x) = false
  ↔ tags = [] ∨ x ∈ tags.
Proof.
  rewrite andb_false_iff, bool_decide_eq_false, negb_false_iff,
    includes_elem_of.
  destruct tags; simpl; split; intros [H|H]; auto; try lia; try done.
Qed.

(** ** Running programs *)

Lemma run_bind {W A B : Type} (env : environment W) (p : prog A)
    (f : A -> prog B) (w : W) :
  run env (p ≫= f) w =
  match run env p w with
  | (t1, Responded a, w1) =>
      let '(t2, r, w2) := run env (f a) w1 in ((t1 ++ t2)%list, r, w2)
  | (t1, Fault e, w1) => (t1, Fault e, w1)
  end.
Proof.
  change (p ≫= f) with (bind p f).
  revert w. induction p as [a|e|c k IH]; intros w; simpl.
  - by destruct (run env (f a) w) as [[t r] w2].
  - done.
  - destruct (respond env c w) as [o w1]. rewrite IH.
    destruct (run env (k o) w1) as [[t1 [a|e]] w2]; [|done].
    by destruct (run env (f a) w2) as [[t2 r] w3].
Qed.

Lemma run_try_catch {W A : Type} (env : environment W) (p : prog A)
    (h : exn -> prog A) (w : W) :
  run env (try_catch p h) w =
  match run env p w with
  | (t1, Responded a, w1) => (t1, Responded a, w1)
  | (t1, Fault e, w1) =>
      let '(t2, r, w2) := run env (h e) w1 in ((t1 ++ t2)%list, r, w2)
  end.
Proof.
  revert w. induction p as [a|e|c k IH]; intros w; simpl.
  - done.
  - by destruct (run env (h e) w) as [[t r] w2].
  - destruct (respond env c w) as [o w1]. rewrite IH.
    destruct (run env (k o) w1) as [[t1 [a|e]] w2]; [done|].
    by destruct (run env (h e) w2) as [[t2 r] w3].
Qed.

(** ** The upload, step by step *)

(** The ownership check makes one call, the tag lookup, and decides on
    its answer. *)
Lemma run_check_ownership {W : Type} (env : environment W)
    (request : IRequest) (w : W) :
  run env (check_ownership request) w =
  let '(o, w1) := respond env (GetTagsOnScript (params_name request)) w in
  ([Ev (GetTagsOnScript (params_name request)) o],
   Responded
     match o with
     | Resolved tags =>
         if bool_decide (0 < length tags)%nat
            && negb (includes tags (customer_id (customer request)))
         then Returns (ApiResponse reserved_message 409)
         else Normal tt
     | Rejected _ => Returns (ApiResponse store_message 500)
     end,
   w1).
Proof.
  unfold check_ownership. cbn.
  destruct (respond env _ w) as [[tags|e] w1]; cbn; [|done].
  by destruct (_ && _).
Qed.

(** Reading the body makes no call. *)
Lemma read_body_pure (request : IRequest) :
  read_body request = Return (body_of request).
Proof.
  unfold read_body, body_of.
  destruct (json request) as [data|e]; cbn; [|done].
  destruct (get data "script") as [scriptContent|e]; cbn; [|done].
  destruct (get data "dispatch_config") as [dispatch_config|e]; cbn; [|done].
  by destruct (get dispatch_config "limits") as [limits|e].
Qed.

(** The upload as a whole: the tag lookup, then, unless the check or the
    body ended the request, the calls of [store_script]. *)
Lemma run_put_script {W : Type} (env : environment W) (request : IRequest)
    (w : W) :
  run env (put_script request) w =
  let lookup := GetTagsOnScript (params_name request) in
  let '(o, w1) := respond env lookup w in
  match o with
  | Rejected _ =>
      ([Ev lookup o], Responded (ApiResponse store_message 500), w1)
  | Resolved tags =>
      if bool_decide (0 < length tags)%nat
         && negb (includes tags (customer_id (customer request)))
      then ([Ev lookup o], Responded (ApiResponse reserved_message 409), w1)
      else
        match body_of request with
        | Returns r => ([Ev lookup o], Responded r, w1)
        | Normal (scriptContent, limits) =>
            let '(t, r, w2) :=
              run env (store_script request scriptContent limits) w1 in
            (Ev lookup o :: t, r, w2)
        end
  end.
Proof.
  unfold put_script. rewrite run_bind, run_check_ownership. cbn zeta.
  destruct (respond env _ w) as [[tags|e] w1]; [|done].
  destruct (_ && _); [done|].
  rewrite run_bind, read_body_pure. cbn [run].
  destruct (body_of request) as [[scriptContent limits]|r]; [|done].
  by destruct (run env _ w1) as [[t r] w2].
Qed.

(** A run that has come to its end, in hypothesis [H]. *)
Ltac finish_run H :=
  injection H as <- <- <-.

(** Conclude with a case of [stored], once it is known whether the
    limits call for a row. *)
Ltac stored_case S Hgiven :=
  let HS := fresh "HS" in
  pose proof S as HS; unfold limits_event in HS; rewrite Hgiven in HS;
  exact HS.

Lemma run_await {W : Type} (env : environment W) (c : effect) (w : W) :
  run env (await c) w =
  let '(o, w1) := respond env c w in
  ([Ev c o],
   match o with Resolved a => Responded a | Rejected e => Fault e end, w1).
Proof.
  unfold await. simpl. destruct (respond env c w) as [[a|e] w1]; done.
Qed.

Lemma run_persist_limits {W : Type} (env : environment W)
    (limits : list (string * value)) (w : W) :
  run env (persist_limits limits) w =
  if limits_given limits
  then let '(o, w1) := respond env (AddDispatchLimits limits) w in
       ([Ev (AddDispatchLimits limits) o],
        match o with Resolved u => Responded u | Rejected e => Fault e end, w1)
  else ([], Responded tt, w).
Proof.
  unfold persist_limits. destruct (limits_given limits); [|done].
  exact (run_await env (AddDispatchLimits limits) w).
Qed.

Lemma run_tag_script {W : Type} (env : environment W) (request : IRequest)
    (w : W) :
  run env (tag_script request) w =
  let '(o, w1) := respond env (tagging request) w in
  match o with
  | Rejected e => ([Ev (tagging request) o], Fault e, w1)
  | Resolved tagsResponse =>
      if ok tagsResponse then ([Ev (tagging request) o], Responded tt, w1)
      else
        match response_text tagsResponse with
        | Rejected e => ([Ev (tagging request) o], Fault e, w1)
        | Resolved text =>
            let '(o', w2) := respond env (tagging_log tagsResponse text) w1 in
            ([Ev (tagging request) o; Ev (tagging_log tagsResponse text) o'],
             Responded tt, w2)
        end
  end.
Proof.
  unfold tag_script, tagging, tagging_log. cbn.
  destruct (respond env _ w) as [[tagsResponse|e] w1]; cbn; [|done].
  destruct (ok tagsResponse); cbn; [done|].
  destruct (response_text tagsResponse) as [text|e]; cbn; [|done].
  by destruct (respond env _ w1) as [o' w2].
Qed.

(** Every run of [store_script] is one of the cases of [stored]. *)
Lemma run_store_script {W : Type} (env : environment W) (request : IRequest)
    (scriptContent : value) (limits : list (string * value)) (w : W)
    (t : list event) (r : result Response) (w' : W) :
  run env (store_script request scriptContent limits) w = (t, r, w') →
  stored request scriptContent limits t r.
Proof.
  unfold store_script. rewrite run_bind. unfold await. cbn [run].
  destruct (respond env _ w) as [[scriptResponse|e] w1]; cbn [run lift app];
    [|intros H; finish_run H; constructor].
  destruct (ok scriptResponse) eqn:Hok; cbn [negb].
  - rewrite run_bind, run_persist_limits.
    destruct (limits_given limits) eqn:Hgiven.
    + destruct (respond env (AddDispatchLimits limits) w1) as [[u|e] w2];
        [|intros H; finish_run H; by constructor].
      rewrite run_bind, run_tag_script. cbn zeta.
      destruct (respond env (tagging request) w2) as [[tagsResponse|e] w3].
      * destruct (ok tagsResponse) eqn:Htag.
        -- intros H; simpl in H; finish_run H.
           stored_case (stored_tagged request scriptContent limits
                          scriptResponse u tagsResponse Hok Htag) Hgiven.
        -- destruct (response_text tagsResponse) as [text|e] eqn:Htext.
           ++ destruct (respond env _ w3) as [o w4].
              intros H; simpl in H; finish_run H.
              stored_case (stored_untagged request scriptContent limits
                             scriptResponse u tagsResponse text o Hok Htag
                             Htext) Hgiven.
           ++ intros H; simpl in H; finish_run H.
              stored_case (stored_unlogged request scriptContent limits
                             scriptResponse u tagsResponse e Hok Htag Htext)
                Hgiven.
      * intros H; simpl in H; finish_run H.
        stored_case (stored_tagging_unreachable request scriptContent limits
                       scriptResponse u e Hok) Hgiven.
    + rewrite run_bind, run_tag_script. cbn zeta.
      destruct (respond env (tagging request) w1) as [[tagsResponse|e] w3].
      * destruct (ok tagsResponse) eqn:Htag.
        -- intros H; simpl in H; finish_run H.
           stored_case (stored_tagged request scriptContent limits
                          scriptResponse tt tagsResponse Hok Htag) Hgiven.
        -- destruct (response_text tagsResponse) as [text|e] eqn:Htext.
           ++ destruct (respond env _ w3) as [o w4].
              intros H; simpl in H; finish_run H.
              stored_case (stored_untagged request scriptContent limits
                             scriptResponse tt tagsResponse text o Hok Htag
                             Htext) Hgiven.
           ++ intros H; simpl in H; finish_run H.
              stored_case (stored_unlogged request scriptContent limits
                             scriptResponse tt tagsResponse e Hok Htag Htext)
                Hgiven.
      * intros H; simpl in H; finish_run H.
        stored_case (stored_tagging_unreachable request scriptContent limits
                       scriptResponse tt e Hok) Hgiven.
  - pose proof (stored_refused request scriptContent limits scriptResponse Hok) as S.
    rewrite run_bind.
    destruct (response_json scriptResponse) as [diagnostic|e] eqn:Hjson;
      intros H; simpl in H; by finish_run H.
Qed.

(** The first call of [store_script] is the upload of the body, and a
    response it gives with [ApiResponse] is the final 201. *)
Lemma stored_head (request : IRequest) (scriptContent : value)
    (limits : list (string * value)) (t : list event) (r : result Response) :
  stored request scriptContent limits t r →
  ∃ o t',
    t = Ev (PutScriptInDispatchNamespace (params_name request) scriptContent) o :: t'
    ∧ ∀ body status, r = Responded (ApiResponse body status) →
                     body = "Success" ∧ status = 201.
Proof.
  intros [e|scriptResponse ?|scriptResponse e ? ?|scriptResponse u e ?
         |scriptResponse u tagsResponse ? ?|scriptResponse u tagsResponse e ? ? ?
         |scriptResponse u tagsResponse text o ? ? ?];
    eexists _, _; (split; [reflexivity|]); intros body status Hr;
    try discriminate Hr; try (by injection Hr as <- <-).
  by destruct (response_json scriptResponse).
Qed.

(** ** Ownership *)

(** C3.  When the name already carries tags and none of them is the id of
    the requesting customer, the upload answers 409 "Script name already
    reserved" after the tag lookup alone: with a lookup that leaves the
    world as it is, the world after the request is the world before it, so
    the stored script and its tags are unchanged.  When the customer's id
    is among the tags, the request passes the check: a well-formed body is
    put in the namespace under the same name, replacing what was there,
    and the answer is not the 409. *)
Theorem reserved_name_conflict {W : Type} (env : environment W)
    (request : IRequest) (w : W) (tags : list string) :
  respond env (GetTagsOnScript (params_name request)) w = (Resolved tags, w) →
  tags ≠ [] →
  (customer_id (customer request) ∉ tags →
   run env (put_script request) w =
   ([Ev (GetTagsOnScript (params_name request)) (Resolved tags)],
    Responded (ApiResponse reserved_message 409), w))
  ∧ (customer_id (customer request) ∈ tags →
     ∀ data scriptContent dispatch_config limits,
       json request = Resolved data →
       get data "script" = Resolved scriptContent →
       get data "dispatch_config" = Resolved dispatch_config →
       get dispatch_config "limits" = Resolved limits →
       ∃ o t r w',
         run env (put_script request) w =
         (Ev (GetTagsOnScript (params_name request)) (Resolved tags)
            :: Ev (PutScriptInDispatchNamespace (params_name request)
                     scriptContent) o
            :: t, r, w')
         ∧ ∀ body, r ≠ Responded (ApiResponse body 409)).
Proof.
  intros Hlookup Htags. split.
  - intros Hid. rewrite run_put_script. cbn zeta. rewrite Hlookup.
    by rewrite (proj2 (reserved_test tags _)).
  - intros Hid data scriptContent dispatch_config limits Hdata Hs Hd Hl.
    rewrite run_put_script. cbn zeta. rewrite Hlookup.
    rewrite (proj2 (not_reserved_test tags _)) by auto.
    unfold body_of. rewrite Hdata, Hs, Hd, Hl.
    destruct (run env _ w) as [[t r] w'] eqn:Hrun.
    apply run_store_script, stored_head in Hrun as (o & t' & -> & Hr).
    exists o, t', r, w'. split; [done|].
    intros body ->. by destruct (Hr _ _ eq_refl).
Qed.

Lemma reserved_name_conflict_witness :
  (respond (registry echo) (GetTagsOnScript "hello") bobs_world
   = (Resolved ["bob"; "pro"], bobs_world))
  ∧ ["bob"; "pro"] ≠ []
  ∧ ("alice" ∉ ["bob"; "pro"])
  ∧ run (registry echo) (put_script (upload_request alice body_cpu_50))
      bobs_world =
    ([Ev (GetTagsOnScript "hello") (Resolved ["bob"; "pro"])],
     Responded (ApiResponse reserved_message 409), bobs_world).
Proof.
  assert (Hlookup : respond (registry echo) (GetTagsOnScript "hello") bobs_world
                    = (Resolved ["bob"; "pro"], bobs_world))
    by (vm_compute; reflexivity).
  assert (Htags : ["bob"; "pro"] ≠ []) by discriminate.
  assert (Hid : "alice" ∉ ["bob"; "pro"]).
  { apply includes_not_elem_of. reflexivity. }
  split; [exact Hlookup|]. split; [exact Htags|]. split; [exact Hid|].
  exact (proj1 (reserved_name_conflict (registry echo)
                  (upload_request alice body_cpu_50) bobs_world
                  ["bob"; "pro"] Hlookup Htags) Hid).
Defined.

(** ** The body *)

Lemma body_of_returns (request : IRequest) (r : Response) :
  body_of request = Returns r → r = ApiResponse expected_message 400.
Proof.
  unfold body_of. intros H.
  destruct (json request) as [data|]; [|congruence].
  destruct (get data "script"); [|congruence].
  destruct (get data "dispatch_config") as [dispatch_config|]; [|congruence].
  destruct (get dispatch_config "limits"); congruence.
Qed.

Lemma body_of_normal (request : IRequest) (scriptContent : value)
    (row : list (string * value)) :
  body_of request = Normal (scriptContent, row) →
  ∃ data dispatch_config limits,
    json request = Resolved data
    ∧ get data "script" = Resolved scriptContent
    ∧ get data "dispatch_config" = Resolved dispatch_config
    ∧ get dispatch_config "limits" = Resolved limits
    ∧ row = spread [("script_id", VStr (params_name request))] limits.
Proof.
  unfold body_of. intros H.
  destruct (json request) as [data|]; [|congruence].
  destruct (get data "script") as [content|] eqn:Hs; [|congruence].
  destruct (get data "dispatch_config") as [dispatch_config|] eqn:Hd;
    [|congruence].
  destruct (get dispatch_config "limits") as [limits|] eqn:Hl; [|congruence].
  injection H as <- <-. by exists data, dispatch_config, limits.
Qed.

(** Reading a property that an object does not have gives [undefined]. *)
Lemma prop_absent (props : list (string * value)) (k : string) :
  existsb (fun kv => String.eqb (fst kv) k) props = false →
  prop props k = VUndefined.
Proof.
  induction props as [|[k' v] rest IH]; simpl; [done|].
  intros H. apply orb_false_iff in H as [Hk Hrest].
  rewrite Hk. by apply IH.
Qed.

Lemma get_absent (data : value) (k : string) (v : value) :
  has_prop data k = false → get data k = Resolved v → v = VUndefined.
Proof.
  destruct data; simpl; intros Hk Hget; try congruence.
  rewrite (prop_absent _ _ Hk) in Hget. congruence.
Qed.

Lemma prop_set_prop (k : string) (v : value) (props : list (string * value))
    (k' : string) :
  prop (set_prop k v props) k' = if String.eqb k k' then v else prop props k'.
Proof.
  induction props as [|[k0 v0] rest IH]; simpl; [done|].
  destruct (String.eqb k0 k) eqn:Hk0; simpl.
  - apply String.eqb_eq in Hk0 as ->. by destruct (String.eqb k k').
  - rewrite IH. destruct (String.eqb k0 k') eqn:Hk0'; [|done].
    apply String.eqb_eq in Hk0' as ->. by rewrite String.eqb_sym, Hk0.
Qed.

(** Reading a property of a spread: the property of the object spread in
    when it has one, the property written before otherwise.  The names of
    a parsed JSON object are distinct. *)
Lemma prop_spread (base props : list (string * value)) (k : string) :
  NoDup props.*1 →
  prop (spread base (VObj props)) k
  = if existsb (fun kv => String.eqb (fst kv) k) props
    then prop props k else prop base k.
Proof.
  unfold spread. simpl. revert base.
  induction props as [|[k0 v0] rest IH]; intros base Hnd; simpl; [done|].
  apply NoDup_cons in Hnd as [Hk0 Hrest]. rewrite (IH _ Hrest), prop_set_prop.
  destruct (String.eqb k0 k) eqn:Hk; simpl; [|done].
  apply String.eqb_eq in Hk as ->.
  destruct (existsb _ rest) eqn:Hex; [|done].
  apply existsb_exists in Hex as ([k1 v1] & Hin & Heq).
  apply String.eqb_eq in Heq. simpl in Heq. subst k1.
  exfalso. apply Hk0. apply list_elem_of_fmap. exists (k, v1).
  split; [done|]. by apply list_elem_of_In.
Qed.

(** For a limits object with distinct names, the test on the row is the
    test on the limits of the request: [cpuMs] or [memory] is truthy. *)
Lemma limits_given_spread (scriptName : string) (props : list (string * value)) :
  NoDup props.*1 →
  limits_given (spread [("script_id", VStr scriptName)] (VObj props))
  = truthy (prop props "cpuMs") || truthy (prop props "memory").
Proof.
  intros Hnd. unfold limits_given. rewrite !prop_spread by done.
  destruct (existsb _ props) eqn:H1.
  - destruct (existsb (fun kv => String.eqb (fst kv) "memory") props) eqn:H2;
      [done|]. by rewrite (prop_absent _ _ H2).
  - rewrite (prop_absent _ _ H1).
    destruct (existsb (fun kv => String.eqb (fst kv) "memory") props) eqn:H2;
      [done|]. by rewrite (prop_absent _ _ H2).
Qed.

(** A body without [dispatch_config] makes the second [try] fault, at
    [data.script] or at [.limits]. *)
Lemma body_of_without_dispatch_config (request : IRequest) (data : value) :
  json request = Resolved data →
  has_prop data "dispatch_config" = false →
  body_of request = Returns (ApiResponse expected_message 400).
Proof.
  intros Hdata Hk. unfold body_of. rewrite Hdata.
  destruct (get data "script"); [|done].
  destruct (get data "dispatch_config") as [dispatch_config|] eqn:Hd; [|done].
  by rewrite (get_absent _ _ _ Hk Hd).
Qed.

(** ** The upload as a whole *)

(** Every run of [put_script] is one of the cases of [uploaded]. *)
Lemma run_put_script_uploaded {W : Type} (env : environment W)
    (request : IRequest) (w : W) (t : list event) (r : result Response)
    (w' : W) :
  run env (put_script request) w = (t, r, w') → uploaded request t r.
Proof.
  rewrite run_put_script. cbn zeta.
  destruct (respond env _ w) as [[tags|e] w1].
  - destruct (_ && _) eqn:Htest.
    + apply reserved_test in Htest as [Htags Hid].
      intros H; finish_run H. by constructor.
    + apply not_reserved_test in Htest.
      destruct (body_of request) as [[scriptContent limits]|r0] eqn:Hbody.
      * destruct (run env _ w1) as [[t1 r1] w2] eqn:Hrun.
        intros H; finish_run H.
        eapply uploaded_stored; eauto using run_store_script.
      * intros H; finish_run H.
        pose proof (body_of_returns _ _ Hbody) as ->. by constructor.
  - intros H; finish_run H. constructor.
Qed.

Lemma persisted_limits_event (limits : list (string * value)) (u : unit) :
  persisted_limits (limits_event limits u)
  = if limits_given limits then [limits] else [].
Proof. unfold limits_event. by destruct (limits_given limits). Qed.

(** ** Refusals come before any write *)

(** C4.  When the tag lookup at the start of an upload is rejected, the
    answer is 500 "Could not complete request" and the lookup is the only
    call made.  More generally, whenever the upload answers with a 500, a
    409 or a 400 made by the handler itself (the 400 of a platform
    diagnostic is a [JsonResponse]), the tag lookup is the only call of
    the run: nothing was written to the namespace or the store. *)
Theorem refusals_precede_writes {W : Type} (env : environment W)
    (request : IRequest) (w : W) (t : list event) (r : result Response)
    (w' : W) :
  run env (put_script request) w = (t, r, w') →
  (∀ e, lookup_verdict t = Some (Rejected e) →
        r = Responded (ApiResponse store_message 500)
        ∧ calls t = [GetTagsOnScript (params_name request)])
  ∧ (∀ body status,
       r = Responded (ApiResponse body status) →
       status = 500 ∨ status = 409 ∨ status = 400 →
       calls t = [GetTagsOnScript (params_name request)]
       ∧ existsb is_write (calls t) = false).
Proof.
  intros H. apply run_put_script_uploaded in H.
  destruct H as [e|tags Htags Hid|tags Hown Hbody
                |tags scriptContent limits t r Hown Hbody Hstored].
  - by split; [intros e' _|intros body status _ _].
  - split; [intros e' He'; discriminate He'|by intros body status _ _].
  - split; [intros e' He'; discriminate He'|by intros body status _ _].
  - split; [intros e' He'; discriminate He'|].
    intros body status -> Hstatus.
    apply stored_head in Hstored as (o & t' & -> & Hr).
    destruct (Hr _ _ eq_refl) as [_ ->]. lia.
Qed.

Lemma refusals_precede_writes_witness :
  run (scripted unreachable) (put_script (upload_request alice body_cpu_50)) tt
  = ([Ev (GetTagsOnScript "hello") (Rejected (Failure "fetch failed"))],
     Responded (ApiResponse store_message 500), tt)
  ∧ existsb is_write
      (calls [Ev (GetTagsOnScript "hello") (Rejected (Failure "fetch failed"))])
    = false.
Proof.
  assert (Hrun : run (scripted unreachable)
                   (put_script (upload_request alice body_cpu_50)) tt
                 = ([Ev (GetTagsOnScript "hello")
                       (Rejected (Failure "fetch failed"))],
                    Responded (ApiResponse store_message 500), tt))
    by reflexivity.
  split; [exact Hrun|].
  exact (proj2 (proj2 (refusals_precede_writes _ _ _ _ _ _ Hrun)
                  store_message 500 eq_refl (or_introl eq_refl))).
Defined.

(** ** The platform refuses the script *)

(** C5.  When the platform answers the upload of the script body with a
    response that is not [ok], the handler answers 400 with the JSON body
    of that response as its own body, and the run consists of the tag
    lookup and the refused upload alone: no limits row is stored and the
    script is not tagged. *)
Theorem platform_refusal_is_forwarded {W : Type} (env : environment W)
    (request : IRequest) (w : W) (t : list event) (r : result Response)
    (w' : W) (scriptResponse : FetchResponse) :
  run env (put_script request) w = (t, r, w') →
  upload_verdict t = Some (Resolved scriptResponse) →
  ok scriptResponse = false →
  (∀ diagnostic,
     response_json scriptResponse = Resolved diagnostic →
     r = Responded (JsonResponse diagnostic (Some 400)))
  ∧ (∃ scriptContent,
       calls t = [GetTagsOnScript (params_name request);
                  PutScriptInDispatchNamespace (params_name request)
                    scriptContent])
  ∧ persisted_limits t = []
  ∧ tagging_verdict t = None.
Proof.
  intros H Hverdict Hok. apply run_put_script_uploaded in H.
  destruct H as [e|tags Htags Hid|tags Hown Hbody
                |tags scriptContent limits t r Hown Hbody Hstored];
    try discriminate Hverdict.
  destruct Hstored as [e|sr Hsr|sr e Hsr Hgiven|sr u e Hsr
                      |sr u tr Hsr Htr|sr u tr e Hsr Htr Htext
                      |sr u tr text' o Hsr Htr Htext];
    simpl in Hverdict; simplify_eq; try congruence.
  repeat split; [|by exists scriptContent].
  by intros diagnostic ->.
Qed.

Lemma platform_refusal_is_forwarded_witness :
  run (scripted (refusing syntax_diagnostic))
    (put_script (upload_request alice body_cpu_50)) tt
  = ([Ev (GetTagsOnScript "hello") (Resolved []);
      Ev (PutScriptInDispatchNamespace "hello"
            sample_script)
         (Resolved (refused syntax_diagnostic))],
     Responded (JsonResponse syntax_diagnostic (Some 400)), tt)
  ∧ tagging_verdict
      [Ev (GetTagsOnScript "hello") (Resolved []);
       Ev (PutScriptInDispatchNamespace "hello"
             sample_script)
          (Resolved (refused syntax_diagnostic))]
    = None.
Proof.
  assert (Hrun : run (scripted (refusing syntax_diagnostic))
                   (put_script (upload_request alice body_cpu_50)) tt
                 = ([Ev (GetTagsOnScript "hello") (Resolved []);
                     Ev (PutScriptInDispatchNamespace "hello"
                           sample_script)
                        (Resolved (refused syntax_diagnostic))],
                    Responded (JsonResponse syntax_diagnostic (Some 400)), tt))
    by reflexivity.
  split; [exact Hrun|].
  exact (proj2 (proj2 (proj2 (platform_refusal_is_forwarded _ _ _ _ _ _
                                (refused syntax_diagnostic)
                                Hrun eq_refl eq_refl)))).
Defined.

(** ** Tagging fails *)




(** ** A body without [dispatch_config] *)

(** C9.  When the body parses but has no [dispatch_config], reading
    [data.dispatch_config.limits] faults inside the second [try]: the tag
    lookup is the only call of the run, so nothing is uploaded or stored,
    and a request that passed the ownership check (the name is free or
    carries the customer's id) is answered 400 with the message that
    describes the expected body.  The ownership check comes first: its
    409 and the 500 of a failed lookup are the only other answers. *)
Theorem missing_dispatch_config_is_rejected {W : Type} (env : environment W)
    (request : IRequest) (w : W) (t : list event) (r : result Response)
    (w' : W) (data : value) :
  run env (put_script request) w = (t, r, w') →
  json request = Resolved data →
  has_prop data "dispatch_config" = false →
  calls t = [GetTagsOnScript (params_name request)]
  ∧ (∀ tags, lookup_verdict t = Some (Resolved tags) →
             tags = [] ∨ customer_id (customer request) ∈ tags →
             r = Responded (ApiResponse expected_message 400))
  ∧ (r = Responded (ApiResponse expected_message 400)
     ∨ r = Responded (ApiResponse reserved_message 409)
     ∨ r = Responded (ApiResponse store_message 500)).
Proof.
  intros H Hdata Hk. apply run_put_script_uploaded in H.
  pose proof (body_of_without_dispatch_config _ _ Hdata Hk) as Hbad.
  destruct H as [e|tags Htags Hid|tags Hown Hbody
                |tags scriptContent limits t r Hown Hbody Hstored];
    try congruence.
  - repeat split; auto. intros tags Hv. discriminate Hv.
  - repeat split; auto. intros tags' Hv [->|Hin]; simpl in Hv; simplify_eq.
  - repeat split; auto.
Qed.

Lemma missing_dispatch_config_is_rejected_witness :
  run (registry echo)
    (put_script (upload_request alice body_without_dispatch_config))
    empty_world
  = ([Ev (GetTagsOnScript "hello") (Resolved [])],
     Responded (ApiResponse expected_message 400), empty_world)
  ∧ json (upload_request alice body_without_dispatch_config)
    = Resolved body_without_dispatch_config
  ∧ has_prop body_without_dispatch_config "dispatch_config" = false
  ∧ calls [Ev (GetTagsOnScript "hello") (Resolved [])]
    = [GetTagsOnScript "hello"].
Proof.
  assert (Hrun : run (registry echo)
                   (put_script (upload_request alice body_without_dispatch_config))
                   empty_world
                 = ([Ev (GetTagsOnScript "hello") (Resolved [])],
                    Responded (ApiResponse expected_message 400), empty_world))
    by (vm_compute; reflexivity).
  split; [exact Hrun|]. split; [reflexivity|]. split; [reflexivity|].
  exact (proj1 (missing_dispatch_config_is_rejected _ _ _ _ _ _ _ Hrun
                  eq_refl eq_refl)).
Defined.

(** ** A body without [script] *)

(** Reading [data.script] never faults once [data.dispatch_config] could
    be read. *)
Lemma body_of_without_script (request : IRequest)
    (data dispatch_config limits : value) :
  json request = Resolved data →
  has_prop data "script" = false →
  get data "dispatch_config" = Resolved dispatch_config →
  get dispatch_config "limits" = Resolved limits →
  body_of request
  = Normal (VUndefined,
            spread [("script_id", VStr (params_name request))] limits).
Proof.
  intros Hdata Hk Hd Hl. unfold body_of. rewrite Hdata, Hd, Hl.
  destruct (get data "script") as [scriptContent|e] eqn:Hs.
  - by rewrite (get_absent _ _ _ Hk Hs).
  - destruct data; discriminate.
Qed.

(** C1, as the code has it.  A body without [script] whose
    [dispatch_config] can be read does not fault in the second [try]:
    [data.script] is [undefined], and a request that passed the ownership
    check goes on to upload [undefined] as the script content.  The answer
    is then whatever the rest of the upload gives, never the 400 with the
    expected-shape message. *)
Theorem missing_script_is_uploaded {W : Type} (env : environment W)
    (request : IRequest) (w : W) (t : list event) (r : result Response)
    (w' : W) (data dispatch_config limits : value) (tags : list string) :
  run env (put_script request) w = (t, r, w') →
  json request = Resolved data →
  has_prop data "script" = false →
  get data "dispatch_config" = Resolved dispatch_config →
  get dispatch_config "limits" = Resolved limits →
  lookup_verdict t = Some (Resolved tags) →
  tags = [] ∨ customer_id (customer request) ∈ tags →
  (∃ o t',
     t = Ev (GetTagsOnScript (params_name request)) (Resolved tags)
         :: Ev (PutScriptInDispatchNamespace (params_name request) VUndefined) o
         :: t')
  ∧ r ≠ Responded (ApiResponse expected_message 400).
Proof.
  intros H Hdata Hk Hd Hl Hverdict Hown.
  apply run_put_script_uploaded in H.
  pose proof (body_of_without_script _ _ _ _ Hdata Hk Hd Hl) as Hnormal.
  destruct H as [e|tags' Htags Hid|tags' Hown' Hbody
                |tags' scriptContent row t r Hown' Hbody Hstored];
    simpl in Hverdict; simplify_eq.
  - by destruct Hown.
  - congruence.
  - assert (scriptContent = VUndefined) as -> by congruence.
    apply stored_head in Hstored as (o & t' & -> & Hr).
    split; [by exists o, t'|].
    intros ->. by destruct (Hr _ _ eq_refl).
Qed.

Lemma missing_script_is_uploaded_witness :
  run (registry echo) (put_script (upload_request alice body_without_script))
    empty_world
  = ([Ev (GetTagsOnScript "hello") (Resolved []);
      Ev (PutScriptInDispatchNamespace "hello" VUndefined) (Resolved accepted);
      Ev (PutTagsOnScript "hello" ["alice"; "basic"]) (Resolved accepted)],
     Responded (ApiResponse "Success" 201),
     put_tags_on_script
       (put_script_in_namespace empty_world "hello" VUndefined)
       "hello" ["alice"; "basic"])
  ∧ has_prop body_without_script "script" = false
  ∧ Responded (ApiResponse "Success" 201)
    ≠ Responded (ApiResponse expected_message 400).
Proof.
  assert (Hrun : run (registry echo)
                   (put_script (upload_request alice body_without_script))
                   empty_world
                 = ([Ev (GetTagsOnScript "hello") (Resolved []);
                     Ev (PutScriptInDispatchNamespace "hello" VUndefined)
                        (Resolved accepted);
                     Ev (PutTagsOnScript "hello" ["alice"; "basic"])
                        (Resolved accepted)],
                    Responded (ApiResponse "Success" 201),
                    put_tags_on_script
                      (put_script_in_namespace empty_world "hello" VUndefined)
                      "hello" ["alice"; "basic"]))
    by (vm_compute; reflexivity).
  split; [exact Hrun|]. split; [reflexivity|].
  exact (proj2 (missing_script_is_uploaded (registry echo)
                  (upload_request alice body_without_script) empty_world
                  _ _ _ body_without_script (VObj []) VUndefined []
                  Hrun eq_refl eq_refl eq_refl eq_refl eq_refl
                  (or_introl eq_refl))).
Defined.

(** ** Dispatch limits *)

Lemma persisted_limits_app (t1 t2 : list event) :
  persisted_limits (t1 ++ t2) = (persisted_limits t1 ++ persisted_limits t2)%list.
Proof. unfold persisted_limits. apply omap_app. Qed.

(** The limits rows of a run of [store_script] that ends with the 201:
    the row, if the limits call for one. *)
Lemma stored_persisted_limits (request : IRequest) (scriptContent : value)
    (limits : list (string * value)) (t : list event) :
  stored request scriptContent limits t (Responded (ApiResponse "Success" 201)) →
  persisted_limits t = if limits_given limits then [limits] else [].
Proof.
  intros H. inversion H as [e|sr Hsr Ht Hr|sr e Hsr Hgiven|sr u e Hsr
                           |sr u tr Hsr Htr|sr u tr e Hsr Htr Htext
                           |sr u tr text o Hsr Htr Htext]; subst.
  - by destruct (response_json sr).
  - change (persisted_limits (limits_event limits u
                              ++ [Ev (tagging request) (Resolved tr)])
            = if limits_given limits then [limits] else []).
    rewrite persisted_limits_app, persisted_limits_event.
    by destruct (limits_given limits).
  - change (persisted_limits (limits_event limits u
                              ++ [Ev (tagging request) (Resolved tr);
                                  Ev (tagging_log tr text) o])
            = if limits_given limits then [limits] else []).
    rewrite persisted_limits_app, persisted_limits_event.
    by destruct (limits_given limits).
Qed.

(** C2, as the code has it.  In every upload that ends with the 201, the
    handler stores a limits row exactly when [limits.cpuMs || limits.memory]
    holds of the row it built, [script_id] followed by the properties of
    [dispatch_config.limits]; the row is stored once.  For a limits object
    as [JSON.parse] gives it, with distinct names, a row is stored if and
    only if [cpuMs] or [memory] of the request is truthy: present and not
    [0], [NaN], [null], [false] or the empty string.  With
    [dispatch_config: { limits: { cpuMs: 50 } }] the row
    [{ script_id, cpuMs: 50 }] is stored; with [dispatch_config: {}] no row
    is stored. *)
Theorem limits_persisted_iff_truthy {W : Type} (env : environment W)
    (request : IRequest) (w : W) (t : list event) (w' : W) :
  run env (put_script request) w
  = (t, Responded (ApiResponse "Success" 201), w') →
  ∃ data scriptContent dispatch_config limits,
    json request = Resolved data
    ∧ get data "script" = Resolved scriptContent
    ∧ get data "dispatch_config" = Resolved dispatch_config
    ∧ get dispatch_config "limits" = Resolved limits
    ∧ persisted_limits t
      = (if limits_given (spread [("script_id", VStr (params_name request))] limits)
         then [spread [("script_id", VStr (params_name request))] limits]
         else [])
    ∧ (∀ props,
         limits = VObj props → NoDup props.*1 →
         persisted_limits t ≠ []
         ↔ truthy (prop props "cpuMs") || truthy (prop props "memory") = true)
    ∧ (dispatch_config = VObj [("limits", VObj [("cpuMs", VNum 50%float)])] →
       persisted_limits t
       = [[("script_id", VStr (params_name request)); ("cpuMs", VNum 50%float)]])
    ∧ (dispatch_config = VObj [] → persisted_limits t = []).
Proof.
  intros H. apply run_put_script_uploaded in H.
  inversion H as [e|tags Htags Hid|tags Hown Hbody
                 |tags scriptContent row t1 r1 Hown Hbody Hstored]; subst.
  apply body_of_normal in Hbody
    as (data & dispatch_config & limits & Hdata & Hs & Hd & Hl & ->).
  apply stored_persisted_limits in Hstored.
  exists data, scriptContent, dispatch_config, limits.
  repeat (split; [done|]).
  change (persisted_limits (Ev (GetTagsOnScript (params_name request))
                              (Resolved tags) :: t1))
    with (persisted_limits t1).
  rewrite Hstored. split; [|split].
  - intros props -> Hnd. rewrite limits_given_spread by done.
    by destruct (truthy _ || truthy _).
  - intros ->. simpl in Hl. injection Hl as <-. reflexivity.
  - intros ->. simpl in Hl. injection Hl as <-. reflexivity.
Qed.

Lemma limits_persisted_iff_truthy_witness :
  run (registry echo) (put_script (upload_request alice body_cpu_50)) empty_world
  = ([Ev (GetTagsOnScript "hello") (Resolved []);
      Ev (PutScriptInDispatchNamespace "hello" sample_script) (Resolved accepted);
      Ev (AddDispatchLimits [("script_id", VStr "hello"); ("cpuMs", VNum 50%float)])
         (Resolved tt);
      Ev (PutTagsOnScript "hello" ["alice"; "basic"]) (Resolved accepted)],
     Responded (ApiResponse "Success" 201),
     put_tags_on_script
       (snd (add_dispatch_limits
               (put_script_in_namespace empty_world "hello" sample_script)
               [("script_id", VStr "hello"); ("cpuMs", VNum 50%float)]))
       "hello" ["alice"; "basic"])
  ∧ persisted_limits
      [Ev (GetTagsOnScript "hello") (Resolved []);
       Ev (PutScriptInDispatchNamespace "hello" sample_script) (Resolved accepted);
       Ev (AddDispatchLimits [("script_id", VStr "hello"); ("cpuMs", VNum 50%float)])
          (Resolved tt);
       Ev (PutTagsOnScript "hello" ["alice"; "basic"]) (Resolved accepted)]
    = [[("script_id", VStr "hello"); ("cpuMs", VNum 50%float)]].
Proof.
  assert (Hrun : run (registry echo)
                   (put_script (upload_request alice body_cpu_50)) empty_world
                 = ([Ev (GetTagsOnScript "hello") (Resolved []);
                     Ev (PutScriptInDispatchNamespace "hello" sample_script)
                        (Resolved accepted);
                     Ev (AddDispatchLimits
                           [("script_id", VStr "hello"); ("cpuMs", VNum 50%float)])
                        (Resolved tt);
                     Ev (PutTagsOnScript "hello" ["alice"; "basic"])
                        (Resolved accepted)],
                    Responded (ApiResponse "Success" 201),
                    put_tags_on_script
                      (snd (add_dispatch_limits
                              (put_script_in_namespace empty_world "hello"
                                 sample_script)
                              [("script_id", VStr "hello");
                               ("cpuMs", VNum 50%float)]))
                      "hello" ["alice"; "basic"]))
    by (vm_compute; reflexivity).
  split; [exact Hrun|].
  destruct (limits_persisted_iff_truthy _ _ _ _ _ Hrun)
    as (data & scriptContent & dispatch_config & limits
        & Hdata & _ & Hd & _ & _ & _ & Hfifty & _).
  apply Hfifty. injection Hdata as <-. simpl in Hd. by injection Hd as <-.
Defined.

(** C2, as the claim words it, fails: with
    [dispatch_config: { limits: { cpuMs: 0, memory: 0 } }] both limits are
    present in the request, the upload ends with the 201, and no limits row
    is handed to the store. *)
Lemma zero_limits_are_not_persisted :
  run (registry echo) (put_script (upload_request alice body_zero_limits))
    empty_world
  = ([Ev (GetTagsOnScript "hello") (Resolved []);
      Ev (PutScriptInDispatchNamespace "hello" sample_script) (Resolved accepted);
      Ev (PutTagsOnScript "hello" ["alice"; "basic"]) (Resolved accepted)],
     Responded (ApiResponse "Success" 201),
     put_tags_on_script
       (put_script_in_namespace empty_world "hello" sample_script)
       "hello" ["alice"; "basic"])
  ∧ get body_zero_limits "dispatch_config"
    = Resolved (VObj [("limits", zero_limits)])
  ∧ has_prop zero_limits "cpuMs" = true
  ∧ has_prop zero_limits "memory" = true
  ∧ persisted_limits
      [Ev (GetTagsOnScript "hello") (Resolved []);
       Ev (PutScriptInDispatchNamespace "hello" sample_script) (Resolved accepted);
       Ev (PutTagsOnScript "hello" ["alice"; "basic"]) (Resolved accepted)]
    = []
  ∧ dispatch_limits
      (put_tags_on_script
         (put_script_in_namespace empty_world "hello" sample_script)
         "hello" ["alice"; "basic"])
    = ∅.
Proof.
  split; [vm_compute; reflexivity|]. repeat split.
Qed.

(** ** Dispatch *)

Section DispatchProperties.

Variable handleDispatchError : exn -> Response.

(** C7.  The dispatch handler always gives a response; it never lets an
    exception escape.  When a call of the run was rejected -- a query of
    the store, the lookup of the handle, or the fetch against a script
    that does not exist or fails -- the response is what
    [handleDispatchError] makes of the exception.  Any response that is
    not made by [handleDispatchError] is the response of the dispatched
    script. *)
Theorem dispatch_never_faults {W : Type} (env : environment W)
    (request : IRequest) (w : W) :
  ∃ t r w',
    run env (get_dispatch handleDispatchError request) w = (t, Responded r, w')
    ∧ (∀ e, first_rejection t = Some e → r = handleDispatchError e)
    ∧ ((∃ e, r = handleDispatchError e)
       ∨ (∃ worker scriptResponse,
            r = Forward scriptResponse
            ∧ last t = Some (Ev (worker_fetch worker request)
                               (Resolved scriptResponse)))).
Proof.
  unfold get_dispatch. cbn.
  destruct (respond env _ w) as [[limitRows|e] w1]; cbn;
    [|by eexists _, _, _; split; [reflexivity|]; split;
         [intros ? [= <-]|left; eexists]].
  destruct (get limitRows "results") as [dispatchLimits|e]; cbn;
    [|by eexists _, _, _; split; [reflexivity|]; split;
         [intros ? [=]|left; eexists]].
  destruct (respond env _ w1) as [[outboundRows|e] w2]; cbn;
    [|by eexists _, _, _; split; [reflexivity|]; split;
         [intros ? [= <-]|left; eexists]].
  destruct (get outboundRows "results") as [outboundWorker|e]; cbn;
    [|by eexists _, _, _; split; [reflexivity|]; split;
         [intros ? [=]|left; eexists]].
  destruct (respond env _ w2) as [[worker|e] w3]; cbn;
    [|by eexists _, _, _; split; [reflexivity|]; split;
         [intros ? [= <-]|left; eexists]].
  destruct (respond env _ w3) as [[scriptResponse|e] w4]; cbn;
    [|by eexists _, _, _; split; [reflexivity|]; split;
         [intros ? [= <-]|left; eexists]].
  eexists _, _, _; split; [reflexivity|]; split; [intros ? [=]|].
  right. by exists worker, scriptResponse.
Qed.

End DispatchProperties.

(** Dispatching a name that has no script in the namespace: the fetch is
    rejected and the answer is the translation of that rejection. *)
Example dispatch_unknown_script (handleDispatchError : exn -> Response) :
  snd (fst (run (registry echo)
              (get_dispatch handleDispatchError dispatch_request) empty_world))
  = Responded (handleDispatchError (Failure "Worker not found")).
Proof. vm_compute. reflexivity. Qed.

(** C10.  The rows of [outbound_workers] are read and then dropped: two
    dispatches of the same request in the same environment, which differ
    only in the rows the outbound-worker query resolves to, make the same
    calls, give the same result and leave the same world; and the handle
    of the script is asked for with empty worker arguments. *)
Theorem dispatch_ignores_outbound_rows (handleDispatchError : exn -> Response)
    {W : Type} (env : environment W) (request : IRequest) (w : W)
    (rows1 rows2 results1 results2 : value) :
  get rows1 "results" = Resolved results1 →
  get rows2 "results" = Resolved results2 →
  ∃ t1 t2 r w',
    run (with_outbound_rows env rows1)
      (get_dispatch handleDispatchError request) w = (t1, r, w')
    ∧ run (with_outbound_rows env rows2)
        (get_dispatch handleDispatchError request) w = (t2, r, w')
    ∧ calls t1 = calls t2
    ∧ Forall empty_worker_args (calls t1).
Proof.
  intros Hrows1 Hrows2. unfold get_dispatch. cbn.
  destruct (respond env _ w) as [[limitRows|e] w1]; cbn;
    [|by eexists _, _, _, _; repeat split; repeat constructor].
  destruct (get limitRows "results") as [dispatchLimits|e]; cbn;
    [|by eexists _, _, _, _; repeat split; repeat constructor].
  rewrite Hrows1, Hrows2. cbn.
  destruct (respond env (dispatcher_get _ _ _) _) as [[worker|e] w3]; cbn;
    [|by eexists _, _, _, _; repeat split; repeat constructor].
  destruct (respond env (worker_fetch _ _) w3) as [[scriptResponse|e] w4]; cbn;
    by eexists _, _, _, _; repeat split; repeat constructor.
Qed.

Lemma dispatch_ignores_outbound_rows_witness :
  get (VObj [("results", VArr [])]) "results" = Resolved (VArr [])
  ∧ get (VObj [("results",
                VArr [VObj [("script_id", VStr "hello");
                            ("outbound_script_id", VStr "logger")]])])
        "results"
    = Resolved (VArr [VObj [("script_id", VStr "hello");
                            ("outbound_script_id", VStr "logger")]])
  ∧ ∃ t1 t2 r w',
      run (with_outbound_rows (registry echo) (VObj [("results", VArr [])]))
        (get_dispatch (fun _ => ApiResponse "Script does not exist" 404)
           dispatch_request) bobs_world = (t1, r, w')
      ∧ run (with_outbound_rows (registry echo)
               (VObj [("results",
                       VArr [VObj [("script_id", VStr "hello");
                                   ("outbound_script_id", VStr "logger")]])]))
          (get_dispatch (fun _ => ApiResponse "Script does not exist" 404)
             dispatch_request) bobs_world = (t2, r, w')
      ∧ calls t1 = calls t2
      ∧ Forall empty_worker_args (calls t1).
Proof.
  split; [reflexivity|]. split; [reflexivity|].
  exact (dispatch_ignores_outbound_rows
           (fun _ => ApiResponse "Script does not exist" 404)
           (registry echo) dispatch_request bobs_world
           (VObj [("results", VArr [])])
           (VObj [("results",
                   VArr [VObj [("script_id", VStr "hello");
                               ("outbound_script_id", VStr "logger")]])])
           _ _ eq_refl eq_refl).
Defined.

(** ** Listing *)

Lemma matches_allow (x : string) (tags : list string) :
  matches [(x, true)] tags = true ↔ x ∈ tags.
Proof.
  unfold matches. simpl. rewrite andb_true_r, <- includes_elem_of.
  by destruct (includes tags x).
Qed.

(** The names the tag query of the model returns are the keys of the tag
    index whose tags satisfy the filter, each once. *)
Lemma elem_of_scripts_by_tags (w : World) (filter : list (string * bool))
    (scriptName : string) :
  scriptName ∈ scripts_by_tags w filter
  ↔ ∃ tags, script_tags w !! scriptName = Some tags
            ∧ matches filter tags = true.
Proof.
  unfold scripts_by_tags. rewrite list_elem_of_omap. split.
  - intros ([n tags] & Hin & Hsome). apply elem_of_map_to_list in Hin.
    simpl in Hsome. destruct (matches filter tags) eqn:Hm; [|done].
    injection Hsome as ->. by exists tags.
  - intros (tags & Hlookup & Hm). exists (scriptName, tags).
    split; [by apply elem_of_map_to_list|]. simpl. by rewrite Hm.
Qed.

Lemma NoDup_scripts_by_tags (w : World) (filter : list (string * bool)) :
  NoDup (scripts_by_tags w filter).
Proof.
  unfold scripts_by_tags.
  pose proof (NoDup_fst_map_to_list (script_tags w)) as Hnd.
  induction (map_to_list (script_tags w)) as [|[n tags] rest IH]; simpl.
  - constructor.
  - apply NoDup_cons in Hnd as [Hn Hrest]. simpl in Hn.
    destruct (matches filter tags); [|by apply IH].
    apply NoDup_cons. split; [|by apply IH].
    intros Hin. apply Hn. apply list_elem_of_omap in Hin
      as ([n' tags'] & Hin & Hsome).
    simpl in Hsome. destruct (matches filter tags'); [|done].
    injection Hsome as ->. apply list_elem_of_fmap. by exists (n, tags').
Qed.

(** C8.  In the model of the tag index, the list handler answers with a
    [JsonResponse] of default status whose array holds exactly the names of
    the scripts tagged with the customer's id, each once; its only call is
    the tag query, and the world after the request is the world before it.
    When no script carries the customer's id the array is empty. *)
Theorem list_returns_owned_scripts
    (execute : value -> IRequest -> outcome FetchResponse)
    (w : World) (request : IRequest) :
  ∃ names,
    run (registry execute) (get_script request) w
    = ([Ev (GetScriptsByTags [(customer_id (customer request), true)])
          (Resolved names)],
       Responded (JsonResponse (VArr (VStr <$> names)) None), w)
    ∧ (∀ scriptName,
         scriptName ∈ names
         ↔ ∃ tags, script_tags w !! scriptName = Some tags
                   ∧ customer_id (customer request) ∈ tags)
    ∧ NoDup names
    ∧ ((∀ scriptName tags, script_tags w !! scriptName = Some tags →
                           customer_id (customer request) ∉ tags) →
       names = []).
Proof.
  exists (scripts_by_tags w [(customer_id (customer request), true)]).
  split; [reflexivity|].
  assert (Hnames : ∀ scriptName,
             scriptName ∈ scripts_by_tags w [(customer_id (customer request), true)]
             ↔ ∃ tags, script_tags w !! scriptName = Some tags
                       ∧ customer_id (customer request) ∈ tags).
  { intros scriptName. rewrite elem_of_scripts_by_tags.
    by setoid_rewrite matches_allow. }
  split; [exact Hnames|]. split; [apply NoDup_scripts_by_tags|].
  intros Hnone. apply elem_of_nil_inv. intros scriptName Hin.
  apply Hnames in Hin as (tags & Hlookup & Hid). by apply (Hnone _ _ Hlookup).
Qed.

(** ** The model, end to end *)

(** After [alice] has uploaded [hello] into an empty world, the script
    is in the namespace, its limits row is in the store, and it is listed
    for [alice] and not for [bob]. *)
Example upload_then_list :
  let w := snd (run (registry echo)
                  (put_script (upload_request alice body_cpu_50)) empty_world) in
  scripts w !! "hello" = Some sample_script
  ∧ dispatch_limits w !! "hello"
    = Some [("script_id", VStr "hello"); ("cpuMs", VNum 50%float)]
  ∧ snd (fst (run (registry echo) (get_script (upload_request alice VNull)) w))
    = Responded (JsonResponse (VArr [VStr "hello"]) None)
  ∧ snd (fst (run (registry echo) (get_script (upload_request bob VNull)) w))
    = Responded (JsonResponse (VArr []) None).
Proof. vm_compute. repeat split. Qed.

(** [bob], who owns [hello], uploads it again: the body is replaced and
    the tags are added to those already there. *)
Example owner_overwrites :
  let w := snd (run (registry echo)
                  (put_script (upload_request bob body_no_limits)) bobs_world) in
  scripts bobs_world !! "hello" = Some (VStr "export default {}")
  ∧ scripts w !! "hello" = Some sample_script
  ∧ script_tags w !! "hello" = Some ["bob"; "pro"; "bob"; "pro"].
Proof. vm_compute. repeat split. Qed.

(** [alice] asks for the name [bob] owns: the world stays as it was. *)
Example stranger_changes_nothing :
  run (registry echo) (put_script (upload_request alice body_cpu_50)) bobs_world
  = ([Ev (GetTagsOnScript "hello") (Resolved ["bob"; "pro"])],
     Responded (ApiResponse reserved_message 409), bobs_world).
Proof. vm_compute. reflexivity. Qed.

(** * Further properties of the handlers *)

(** ** Which bodies the upload refuses *)

(** The second [try] ends the request exactly when the body cannot be
    parsed, is [null], or has a [dispatch_config] that is missing or
    [null]. *)
Lemma body_of_returns_iff (request : IRequest) :
  body_of request = Returns (ApiResponse expected_message 400)
  ↔ (∃ e, json request = Rejected e)
    ∨ (∃ data, json request = Resolved data
               ∧ (data = VUndefined ∨ data = VNull
                  ∨ get data "dispatch_config" = Resolved VUndefined
                  ∨ get data "dispatch_config" = Resolved VNull)).
Proof.
  unfold body_of. destruct (json request) as [data|e]; [|by split; eauto].
  split.
  - intros H. right. exists data. split; [done|].
    destruct data; simpl in *; auto;
      match goal with
      | H : context [get ?dc "limits"] |- _ =>
          destruct dc; simpl in H; try discriminate H; auto
      end.
  - intros [[e He]|(data' & [= <-] & [->|[->|[H|H]]])]; try done.
    + destruct (get data "script"); [|done]. by rewrite H.
    + destruct (get data "script"); [|done]. by rewrite H.
Qed.

(** X1.  An upload that passed the ownership check is answered 400 with
    the expected-shape message if and only if [request.json()] is rejected,
    the body is [null], or its [dispatch_config] is missing or [null].  No
    other shape of body is refused by the handler. *)
Theorem body_refused_iff {W : Type} (env : environment W)
    (request : IRequest) (w : W) (t : list event) (r : result Response)
    (w' : W) (tags : list string) :
  run env (put_script request) w = (t, r, w') →
  lookup_verdict t = Some (Resolved tags) →
  tags = [] ∨ customer_id (customer request) ∈ tags →
  r = Responded (ApiResponse expected_message 400)
  ↔ (∃ e, json request = Rejected e)
    ∨ (∃ data, json request = Resolved data
               ∧ (data = VUndefined ∨ data = VNull
                  ∨ get data "dispatch_config" = Resolved VUndefined
                  ∨ get data "dispatch_config" = Resolved VNull)).
Proof.
  intros H Hverdict Hown. apply run_put_script_uploaded in H.
  rewrite <- body_of_returns_iff.
  destruct H as [e|tags' Htags Hid|tags' Hown' Hbody
                |tags' scriptContent limits t r Hown' Hbody Hstored];
    simpl in Hverdict; simplify_eq.
  - by destruct Hown.
  - done.
  - apply stored_head in Hstored as (o & t' & -> & Hr). split.
    + intros ->. by destruct (Hr _ _ eq_refl).
    + intros Hbad. congruence.
Qed.

Lemma body_refused_iff_witness :
  run (registry echo) (put_script unreadable_request) empty_world
  = ([Ev (GetTagsOnScript "hello") (Resolved [])],
     Responded (ApiResponse expected_message 400), empty_world)
  ∧ lookup_verdict [Ev (GetTagsOnScript "hello") (Resolved [])]
    = Some (Resolved [])
  ∧ ∃ e, json unreadable_request = Rejected e.
Proof.
  assert (Hrun : run (registry echo) (put_script unreadable_request) empty_world
                 = ([Ev (GetTagsOnScript "hello") (Resolved [])],
                    Responded (ApiResponse expected_message 400), empty_world))
    by (vm_compute; reflexivity).
  split; [exact Hrun|]. split; [reflexivity|].
  destruct (proj1 (body_refused_iff _ _ _ _ _ _ [] Hrun eq_refl
                     (or_introl eq_refl)) eq_refl)
    as [He|(data & Hdata & _)]; [exact He|discriminate Hdata].
Defined.

(** ** What a 201 stands for *)

Lemma calls_app (t1 t2 : list event) :
  calls (t1 ++ t2) = (calls t1 ++ calls t2)%list.
Proof. unfold calls. apply fmap_app. Qed.

Lemma calls_limits_event (limits : list (string * value)) (u : unit) :
  calls (limits_event limits u)
  = if limits_given limits then [AddDispatchLimits limits] else [].
Proof. unfold limits_event. by destruct (limits_given limits). Qed.

(** X2.  An upload is answered 201 only after the tag lookup let it pass,
    the body gave a script content and a limits row, the platform accepted
    that content under the requested name, and the tagging call with the
    customer's id and plan type came back.  The calls of such a run are, in
    this order: the lookup, the upload of the content, the limits row if
    the limits call for one, the tagging, and the log line if the tagging
    response was not [ok]. *)
Theorem success_means_uploaded_and_tagged {W : Type} (env : environment W)
    (request : IRequest) (w : W) (t : list event) (w' : W) :
  run env (put_script request) w
  = (t, Responded (ApiResponse "Success" 201), w') →
  ∃ tags scriptContent limits scriptResponse tagsResponse,
    lookup_verdict t = Some (Resolved tags)
    ∧ (tags = [] ∨ customer_id (customer request) ∈ tags)
    ∧ body_of request = Normal (scriptContent, limits)
    ∧ upload_verdict t = Some (Resolved scriptResponse)
    ∧ ok scriptResponse = true
    ∧ tagging_verdict t = Some (Resolved tagsResponse)
    ∧ calls t
      = ([GetTagsOnScript (params_name request);
          PutScriptInDispatchNamespace (params_name request) scriptContent]
         ++ (if limits_given limits then [AddDispatchLimits limits] else [])
         ++ [PutTagsOnScript (params_name request)
               [customer_id (customer request);
                customer_plan_type (customer request)]]
         ++ match ok tagsResponse, response_text tagsResponse with
            | false, Resolved text => [tagging_log tagsResponse text]
            | _, _ => []
            end)%list.
Proof.
  intros H. apply run_put_script_uploaded in H.
  inversion H as [e|tags Htags Hid|tags Hown Hbody
                 |tags scriptContent limits t1 r1 Hown Hbody Hstored]; subst.
  exists tags, scriptContent, limits.
  inversion Hstored as [e|sr Hsr Ht Hr|sr e Hsr Hgiven|sr u e Hsr
                       |sr u tr Hsr Htr|sr u tr e Hsr Htr Htext
                       |sr u tr text o Hsr Htr Htext]; subst.
  - by destruct (response_json sr).
  - exists sr, tr. rewrite Htr.
    repeat (split; [done|]).
    split; [unfold limits_event; by destruct (limits_given limits)|].
    cbn [calls fmap list_fmap call_of].
    change (list_fmap event effect call_of) with (calls).
    rewrite calls_app, calls_limits_event. simpl.
    by destruct (limits_given limits).
  - exists sr, tr. rewrite Htr, Htext.
    repeat (split; [done|]).
    split; [unfold limits_event; by destruct (limits_given limits)|].
    cbn [calls fmap list_fmap call_of].
    change (list_fmap event effect call_of) with (calls).
    rewrite calls_app, calls_limits_event. simpl.
    by destruct (limits_given limits).
Qed.

Lemma success_means_uploaded_and_tagged_witness :
  run (registry echo) (put_script (upload_request alice body_no_limits))
    empty_world
  = ([Ev (GetTagsOnScript "hello") (Resolved []);
      Ev (PutScriptInDispatchNamespace "hello" sample_script) (Resolved accepted);
      Ev (PutTagsOnScript "hello" ["alice"; "basic"]) (Resolved accepted)],
     Responded (ApiResponse "Success" 201),
     put_tags_on_script
       (put_script_in_namespace empty_world "hello" sample_script)
       "hello" ["alice"; "basic"])
  ∧ ∃ scriptResponse,
      upload_verdict
        [Ev (GetTagsOnScript "hello") (Resolved []);
         Ev (PutScriptInDispatchNamespace "hello" sample_script)
            (Resolved accepted);
         Ev (PutTagsOnScript "hello" ["alice"; "basic"]) (Resolved accepted)]
      = Some (Resolved scriptResponse)
      ∧ ok scriptResponse = true.
Proof.
  assert (Hrun : run (registry echo)
                   (put_script (upload_request alice body_no_limits))
                   empty_world
                 = ([Ev (GetTagsOnScript "hello") (Resolved []);
                     Ev (PutScriptInDispatchNamespace "hello" sample_script)
                        (Resolved accepted);
                     Ev (PutTagsOnScript "hello" ["alice"; "basic"])
                        (Resolved accepted)],
                    Responded (ApiResponse "Success" 201),
                    put_tags_on_script
                      (put_script_in_namespace empty_world "hello" sample_script)
                      "hello" ["alice"; "basic"]))
    by (vm_compute; reflexivity).
  split; [exact Hrun|].
  destruct (success_means_uploaded_and_tagged _ _ _ _ _ Hrun)
    as (tags & scriptContent & limits & scriptResponse & tagsResponse
        & _ & _ & _ & Hupload & Hok & _).
  by exists scriptResponse.
Defined.

(** ** Bookkeeping comes after the upload *)

(** X3.  In every run of the upload handler, a limits row is handed to
    the store, or the script is tagged, only after the platform accepted
    the script body; and the script is tagged only if no limits row was
    due or the store took the row. *)
Theorem bookkeeping_follows_accepted_upload {W : Type} (env : environment W)
    (request : IRequest) (w : W) (t : list event) (r : result Response)
    (w' : W) :
  run env (put_script request) w = (t, r, w') →
  limits_verdict t ≠ None ∨ tagging_verdict t ≠ None →
  (∃ scriptResponse,
     upload_verdict t = Some (Resolved scriptResponse)
     ∧ ok scriptResponse = true)
  ∧ (tagging_verdict t ≠ None →
     limits_verdict t = None ∨ ∃ u, limits_verdict t = Some (Resolved u)).
Proof.
  intros H Hbook. apply run_put_script_uploaded in H.
  destruct H as [e|tags Htags Hid|tags Hown Hbody
                |tags scriptContent limits t r Hown Hbody Hstored];
    try (destruct Hbook as [Hb|Hb]; by destruct Hb).
  destruct Hstored as [e|sr Hsr|sr e Hsr Hgiven|sr u e Hsr
                      |sr u tr Hsr Htr|sr u tr e Hsr Htr Htext
                      |sr u tr text o Hsr Htr Htext];
    try (destruct Hbook as [Hb|Hb]; by destruct Hb).
  - split; [by exists sr|]. intros Htag. by destruct Htag.
  - split; [by exists sr|]. intros _. unfold limits_event.
    destruct (limits_given limits); [right; by exists u|by left].
  - split; [by exists sr|]. intros _. unfold limits_event.
    destruct (limits_given limits); [right; by exists u|by left].
  - split; [by exists sr|]. intros _. unfold limits_event.
    destruct (limits_given limits); [right; by exists u|by left].
  - split; [by exists sr|]. intros _. unfold limits_event.
    destruct (limits_given limits); [right; by exists u|by left].
Qed.

Lemma bookkeeping_follows_accepted_upload_witness :
  run (scripted store_down) (put_script (upload_request alice body_cpu_50)) tt
  = ([Ev (GetTagsOnScript "hello") (Resolved []);
      Ev (PutScriptInDispatchNamespace "hello" sample_script) (Resolved accepted);
      Ev (AddDispatchLimits [("script_id", VStr "hello"); ("cpuMs", VNum 50%float)])
         (Rejected (Failure "D1_ERROR"))],
     Fault (Failure "D1_ERROR"), tt)
  ∧ ∃ scriptResponse,
      upload_verdict
        [Ev (GetTagsOnScript "hello") (Resolved []);
         Ev (PutScriptInDispatchNamespace "hello" sample_script)
            (Resolved accepted);
         Ev (AddDispatchLimits
               [("script_id", VStr "hello"); ("cpuMs", VNum 50%float)])
            (Rejected (Failure "D1_ERROR"))]
      = Some (Resolved scriptResponse)
      ∧ ok scriptResponse = true.
Proof.
  assert (Hrun : run (scripted store_down)
                   (put_script (upload_request alice body_cpu_50)) tt
                 = ([Ev (GetTagsOnScript "hello") (Resolved []);
                     Ev (PutScriptInDispatchNamespace "hello" sample_script)
                        (Resolved accepted);
                     Ev (AddDispatchLimits
                           [("script_id", VStr "hello"); ("cpuMs", VNum 50%float)])
                        (Rejected (Failure "D1_ERROR"))],
                    Fault (Failure "D1_ERROR"), tt))
    by reflexivity.
  split; [exact Hrun|].
  refine (proj1 (bookkeeping_follows_accepted_upload _ _ _ _ _ _ Hrun _)).
  left. discriminate.
Defined.

(** ** Exceptions that escape the upload *)

(** X4.  The upload handler lets an exception escape only after the
    ownership check and the body let the request pass and the upload of
    the script body was attempted.  The exception is then the rejection of
    that upload, of reading the JSON diagnostic of a refused upload, of
    [AddDispatchLimits], of the tagging call, or of reading the text of a
    failed tagging response.  The tag lookup and the body never make the
    handler fault. *)
Theorem upload_faults_after_checks {W : Type} (env : environment W)
    (request : IRequest) (w : W) (t : list event) (e : exn) (w' : W) :
  run env (put_script request) w = (t, Fault e, w') →
  ∃ tags scriptContent limits,
    lookup_verdict t = Some (Resolved tags)
    ∧ (tags = [] ∨ customer_id (customer request) ∈ tags)
    ∧ body_of request = Normal (scriptContent, limits)
    ∧ (calls t) !! 1%nat
      = Some (PutScriptInDispatchNamespace (params_name request) scriptContent)
    ∧ (upload_verdict t = Some (Rejected e)
       ∨ (∃ scriptResponse,
            upload_verdict t = Some (Resolved scriptResponse)
            ∧ ok scriptResponse = false
            ∧ response_json scriptResponse = Rejected e)
       ∨ limits_verdict t = Some (Rejected e)
       ∨ tagging_verdict t = Some (Rejected e)
       ∨ (∃ tagsResponse,
            tagging_verdict t = Some (Resolved tagsResponse)
            ∧ ok tagsResponse = false
            ∧ response_text tagsResponse = Rejected e)).
Proof.
  intros H. apply run_put_script_uploaded in H.
  inversion H as [e0|tags Htags Hid|tags Hown Hbody
                 |tags scriptContent limits t1 r1 Hown Hbody Hstored]; subst.
  exists tags, scriptContent, limits.
  inversion Hstored as [e0|sr Hsr Ht Hr|sr e0 Hsr Hgiven|sr u e0 Hsr
                       |sr u tr Hsr Htr|sr u tr e0 Hsr Htr Htext
                       |sr u tr text o Hsr Htr Htext]; subst;
    repeat (split; [done|]).
  - by left.
  - right; left. exists sr. destruct (response_json sr); by simplify_eq.
  - do 2 right; left. done.
  - do 3 right; left. unfold limits_event. by destruct (limits_given limits).
  - do 4 right. exists tr. unfold limits_event.
    by destruct (limits_given limits).
Qed.

Lemma upload_faults_after_checks_witness :
  run (scripted store_down) (put_script (upload_request alice body_cpu_50)) tt
  = ([Ev (GetTagsOnScript "hello") (Resolved []);
      Ev (PutScriptInDispatchNamespace "hello" sample_script) (Resolved accepted);
      Ev (AddDispatchLimits [("script_id", VStr "hello"); ("cpuMs", VNum 50%float)])
         (Rejected (Failure "D1_ERROR"))],
     Fault (Failure "D1_ERROR"), tt)
  ∧ ∃ tags scriptContent limits,
      lookup_verdict
        [Ev (GetTagsOnScript "hello") (Resolved []);
         Ev (PutScriptInDispatchNamespace "hello" sample_script)
            (Resolved accepted);
         Ev (AddDispatchLimits
               [("script_id", VStr "hello"); ("cpuMs", VNum 50%float)])
            (Rejected (Failure "D1_ERROR"))]
      = Some (Resolved tags)
      ∧ body_of (upload_request alice body_cpu_50)
        = Normal (scriptContent, limits).
Proof.
  assert (Hrun : run (scripted store_down)
                   (put_script (upload_request alice body_cpu_50)) tt
                 = ([Ev (GetTagsOnScript "hello") (Resolved []);
                     Ev (PutScriptInDispatchNamespace "hello" sample_script)
                        (Resolved accepted);
                     Ev (AddDispatchLimits
                           [("script_id", VStr "hello"); ("cpuMs", VNum 50%float)])
                        (Rejected (Failure "D1_ERROR"))],
                    Fault (Failure "D1_ERROR"), tt))
    by reflexivity.
  split; [exact Hrun|].
  destruct (upload_faults_after_checks _ _ _ _ _ _ Hrun)
    as (tags & scriptContent & limits & Hlookup & _ & Hbody & _).
  by exists tags, scriptContent, limits.
Defined.



(** ** The key of the limits row *)

(** The rows of a run that ends with the 201: the row the body gave, if
    its limits call for one. *)
Lemma persisted_limits_of_success {W : Type} (env : environment W)
    (request : IRequest) (w : W) (t : list event) (w' : W) :
  run env (put_script request) w
  = (t, Responded (ApiResponse "Success" 201), w') →
  ∃ scriptContent row,
    body_of request = Normal (scriptContent, row)
    ∧ persisted_limits t = if limits_given row then [row] else [].
Proof.
  intros H. apply run_put_script_uploaded in H.
  inversion H as [e|tags Htags Hid|tags Hown Hbody
                 |tags scriptContent row t1 r1 Hown Hbody Hstored]; subst.
  exists scriptContent, row. split; [done|].
  by apply stored_persisted_limits in Hstored.
Qed.

(** X6.  The limits row starts as [{ script_id: scriptName }] and the
    properties of [dispatch_config.limits] are spread over it.  For a
    limits object with distinct names, the [script_id] of every row a
    successful upload stores is the [script_id] of the limits when they
    carry one, and the name in the path of the request only otherwise: the
    body can direct the row to another script. *)
Theorem limits_row_key {W : Type} (env : environment W)
    (request : IRequest) (w : W) (t : list event) (w' : W)
    (data dispatch_config : value) (props : list (string * value)) :
  run env (put_script request) w
  = (t, Responded (ApiResponse "Success" 201), w') →
  json request = Resolved data →
  get data "dispatch_config" = Resolved dispatch_config →
  get dispatch_config "limits" = Resolved (VObj props) →
  NoDup props.*1 →
  ∀ row, row ∈ persisted_limits t →
         prop row "script_id"
         = if existsb (fun kv => String.eqb (fst kv) "script_id") props
           then prop props "script_id"
           else VStr (params_name request).
Proof.
  intros H Hdata Hd Hl Hnd row Hrow.
  destruct (persisted_limits_of_success env request w t w' H)
    as (scriptContent & limits & Hbody & Hrows).
  unfold body_of in Hbody. rewrite Hdata, Hd, Hl in Hbody.
  destruct (get data "script"); [|done]. injection Hbody as _ <-.
  rewrite Hrows in Hrow.
  destruct (limits_given _); [|by apply elem_of_nil in Hrow].
  apply list_elem_of_singleton in Hrow as ->.
  by rewrite prop_spread.
Qed.

Lemma limits_row_key_witness :
  run (registry echo) (put_script (upload_request alice body_renaming_row))
    empty_world
  = ([Ev (GetTagsOnScript "hello") (Resolved []);
      Ev (PutScriptInDispatchNamespace "hello" sample_script) (Resolved accepted);
      Ev (AddDispatchLimits [("script_id", VStr "other"); ("cpuMs", VNum 50%float)])
         (Resolved tt);
      Ev (PutTagsOnScript "hello" ["alice"; "basic"]) (Resolved accepted)],
     Responded (ApiResponse "Success" 201),
     put_tags_on_script
       (snd (add_dispatch_limits
               (put_script_in_namespace empty_world "hello" sample_script)
               [("script_id", VStr "other"); ("cpuMs", VNum 50%float)]))
       "hello" ["alice"; "basic"])
  ∧ NoDup ["script_id"; "cpuMs"]
  ∧ ∀ row,
      row ∈ persisted_limits
              [Ev (GetTagsOnScript "hello") (Resolved []);
               Ev (PutScriptInDispatchNamespace "hello" sample_script)
                  (Resolved accepted);
               Ev (AddDispatchLimits
                     [("script_id", VStr "other"); ("cpuMs", VNum 50%float)])
                  (Resolved tt);
               Ev (PutTagsOnScript "hello" ["alice"; "basic"])
                  (Resolved accepted)] →
      prop row "script_id" = VStr "other".
Proof.
  assert (Hrun : run (registry echo)
                   (put_script (upload_request alice body_renaming_row))
                   empty_world
                 = ([Ev (GetTagsOnScript "hello") (Resolved []);
                     Ev (PutScriptInDispatchNamespace "hello" sample_script)
                        (Resolved accepted);
                     Ev (AddDispatchLimits
                           [("script_id", VStr "other"); ("cpuMs", VNum 50%float)])
                        (Resolved tt);
                     Ev (PutTagsOnScript "hello" ["alice"; "basic"])
                        (Resolved accepted)],
                    Responded (ApiResponse "Success" 201),
                    put_tags_on_script
                      (snd (add_dispatch_limits
                              (put_script_in_namespace empty_world "hello"
                                 sample_script)
                              [("script_id", VStr "other");
                               ("cpuMs", VNum 50%float)]))
                      "hello" ["alice"; "basic"]))
    by (vm_compute; reflexivity).
  assert (Hnd : NoDup ["script_id"; "cpuMs"]).
  { apply NoDup_cons. split; [|apply NoDup_singleton].
    intros Hin. apply list_elem_of_singleton in Hin. discriminate Hin. }
  split; [exact Hrun|]. split; [exact Hnd|].
  exact (limits_row_key (registry echo)
           (upload_request alice body_renaming_row) empty_world _ _
           body_renaming_row
           (VObj [("limits",
                   VObj [("script_id", VStr "other"); ("cpuMs", VNum 50%float)])])
           [("script_id", VStr "other"); ("cpuMs", VNum 50%float)]
           Hrun eq_refl eq_refl eq_refl Hnd).
Defined.

(** In the model of the store, the row of that upload lands under the
    other script's id, and the uploaded script has no row. *)
Example renamed_row_in_the_store :
  let w := snd (run (registry echo)
                  (put_script (upload_request alice body_renaming_row))
                  empty_world) in
  dispatch_limits w !! "other"
  = Some [("script_id", VStr "other"); ("cpuMs", VNum 50%float)]
  ∧ dispatch_limits w !! "hello" = None.
Proof. vm_compute. split; reflexivity. Qed.

(** ** Runs of the dispatch handler *)

(** Every run of [get_dispatch] is one of the cases of [dispatched]. *)
Lemma run_get_dispatch (handleDispatchError : exn -> Response) {W : Type}
    (env : environment W) (request : IRequest) (w : W) (t : list event)
    (r : result Response) (w' : W) :
  run env (get_dispatch handleDispatchError request) w = (t, r, w') →
  dispatched handleDispatchError request t r.
Proof.
  unfold get_dispatch. cbn.
  destruct (respond env _ w) as [[limitRows|e] w1]; cbn;
    [|intros H; finish_run H; constructor].
  destruct (get limitRows "results") as [dispatchLimits|e] eqn:Hl; cbn;
    [|intros H; finish_run H; by constructor].
  destruct (respond env _ w1) as [[outboundRows|e] w2]; cbn;
    [|intros H; finish_run H; by econstructor].
  destruct (get outboundRows "results") as [outboundWorker|e] eqn:Ho; cbn;
    [|intros H; finish_run H; by econstructor].
  destruct (respond env _ w2) as [[worker|e] w3]; cbn;
    [|intros H; finish_run H; by econstructor].
  destruct (respond env _ w3) as [[scriptResponse|e] w4]; cbn;
    intros H; finish_run H.
  - by apply (dispatched_fetch _ _ limitRows dispatchLimits outboundRows
                outboundWorker worker (Resolved scriptResponse)).
  - by apply (dispatched_fetch _ _ limitRows dispatchLimits outboundRows
                outboundWorker worker (Rejected e)).
Qed.

(** X7.  The dispatch handler only reads: no run of it calls
    [PutScriptInDispatchNamespace], [PutTagsOnScript] or
    [AddDispatchLimits], and it makes at most four calls. *)
Theorem dispatch_only_reads (handleDispatchError : exn -> Response)
    {W : Type} (env : environment W) (request : IRequest) (w : W) :
  existsb is_write
    (calls (fst (fst (run env (get_dispatch handleDispatchError request) w))))
  = false
  ∧ (length (fst (fst (run env (get_dispatch handleDispatchError request) w)))
     ≤ 4)%nat.
Proof.
  destruct (run env _ w) as [[t r] w'] eqn:H.
  apply run_get_dispatch in H. destruct H; simpl; split; (done || lia).
Qed.

(** X8.  Whenever the dispatch handler fetches a script, it does so with
    the request it was given, on the handle that [env.dispatcher.get]
    returned for the name in the path, empty worker arguments and, as
    [limits], the [results] of the limits query unchanged.  The response of
    the script is returned as it is; a rejected fetch is answered with
    [handleDispatchError] of the exception. *)
Theorem dispatch_forwards (handleDispatchError : exn -> Response)
    {W : Type} (env : environment W) (request : IRequest) (w : W)
    (t : list event) (r : result Response) (w' : W) (worker : Worker)
    (forwarded : IRequest) (o : outcome FetchResponse) :
  run env (get_dispatch handleDispatchError request) w = (t, r, w') →
  fetched t = Some (worker, forwarded, o) →
  forwarded = request
  ∧ (∃ limitRows dispatchLimits,
       limits_rows t = Some (Resolved limitRows)
       ∧ get limitRows "results" = Resolved dispatchLimits
       ∧ handle_request t
         = Some (params_name request, [], [("limits", dispatchLimits)],
                 Resolved worker))
  ∧ r = Responded match o with
                  | Resolved scriptResponse => Forward scriptResponse
                  | Rejected e => handleDispatchError e
                  end.
Proof.
  intros H Hfetched. apply run_get_dispatch in H.
  destruct H; simpl in Hfetched; simplify_eq.
  split; [done|]. split; [|done]. by eexists _, _.
Qed.

Lemma dispatch_forwards_witness :
  run (registry echo) (get_dispatch sample_translation dispatch_request)
    bobs_world
  = ([Ev (GetDispatchLimitFromScript "hello")
         (Resolved (VObj [("results", VArr [])]));
      Ev (GetOutboundWorkerFromScript "hello")
         (Resolved (VObj [("results", VArr [])]));
      Ev (dispatcher_get "hello" [] [("limits", VArr [])])
         (Resolved {| worker_name := "hello"; worker_args := [];
                      worker_options := [("limits", VArr [])] |});
      Ev (worker_fetch {| worker_name := "hello"; worker_args := [];
                          worker_options := [("limits", VArr [])] |}
            dispatch_request)
         (echo (VStr "export default {}") dispatch_request)],
     Responded
       match echo (VStr "export default {}") dispatch_request with
       | Resolved scriptResponse => Forward scriptResponse
       | Rejected e => sample_translation e
       end,
     bobs_world)
  ∧ ∃ dispatchLimits,
      handle_request
        [Ev (GetDispatchLimitFromScript "hello")
            (Resolved (VObj [("results", VArr [])]));
         Ev (GetOutboundWorkerFromScript "hello")
            (Resolved (VObj [("results", VArr [])]));
         Ev (dispatcher_get "hello" [] [("limits", VArr [])])
            (Resolved {| worker_name := "hello"; worker_args := [];
                         worker_options := [("limits", VArr [])] |});
         Ev (worker_fetch {| worker_name := "hello"; worker_args := [];
                             worker_options := [("limits", VArr [])] |}
               dispatch_request)
            (echo (VStr "export default {}") dispatch_request)]
      = Some ("hello", [], [("limits", dispatchLimits)],
              Resolved {| worker_name := "hello"; worker_args := [];
                          worker_options := [("limits", VArr [])] |}).
Proof.
  assert (Hrun : run (registry echo)
                   (get_dispatch sample_translation dispatch_request)
                   bobs_world
                 = ([Ev (GetDispatchLimitFromScript "hello")
                        (Resolved (VObj [("results", VArr [])]));
                     Ev (GetOutboundWorkerFromScript "hello")
                        (Resolved (VObj [("results", VArr [])]));
                     Ev (dispatcher_get "hello" [] [("limits", VArr [])])
                        (Resolved {| worker_name := "hello"; worker_args := [];
                                     worker_options := [("limits", VArr [])] |});
                     Ev (worker_fetch
                           {| worker_name := "hello"; worker_args := [];
                              worker_options := [("limits", VArr [])] |}
                           dispatch_request)
                        (echo (VStr "export default {}") dispatch_request)],
                    Responded
                      match echo (VStr "export default {}") dispatch_request with
                      | Resolved scriptResponse => Forward scriptResponse
                      | Rejected e => sample_translation e
                      end,
                    bobs_world))
    by (vm_compute; reflexivity).
  split; [exact Hrun|].
  destruct (proj1 (proj2 (dispatch_forwards sample_translation _ _ _ _ _ _
                            _ _ _ Hrun eq_refl)))
    as (limitRows & dispatchLimits & _ & _ & Hhandle).
  by exists dispatchLimits.
Defined.

(** X9.  The rows of the outbound-worker query are not used, but the
    query has to succeed: when it is rejected, or resolves to [null] or
    [undefined] so that reading [.results] faults, the handle of the script
    is not asked for, the script is not fetched, and the answer is
    [handleDispatchError] of the exception. *)
Theorem dispatch_needs_outbound_query (handleDispatchError : exn -> Response)
    {W : Type} (env : environment W) (request : IRequest) (w : W)
    (t : list event) (r : result Response) (w' : W) (e : exn) :
  run env (get_dispatch handleDispatchError request) w = (t, r, w') →
  outbound_rows t = Some (Rejected e)
  ∨ (∃ outboundRows, outbound_rows t = Some (Resolved outboundRows)
                     ∧ get outboundRows "results" = Rejected e) →
  r = Responded (handleDispatchError e)
  ∧ handle_request t = None
  ∧ fetched t = None.
Proof.
  intros H Hout. apply run_get_dispatch in H.
  destruct H; simpl in Hout;
    destruct Hout as [Hout|(rows & Hout & Hget)]; simplify_eq.
  all: try done; try (exfalso; congruence).
  repeat split; congruence.
Qed.

Lemma dispatch_needs_outbound_query_witness :
  run (scripted null_rows) (get_dispatch sample_translation dispatch_request) tt
  = ([Ev (GetDispatchLimitFromScript "hello")
         (Resolved (VObj [("results", VArr [])]));
      Ev (GetOutboundWorkerFromScript "hello") (Resolved VNull)],
     Responded (ApiResponse "Could not connect to script" 500), tt)
  ∧ fetched
      [Ev (GetDispatchLimitFromScript "hello")
          (Resolved (VObj [("results", VArr [])]));
       Ev (GetOutboundWorkerFromScript "hello") (Resolved VNull)]
    = None.
Proof.
  assert (Hrun : run (scripted null_rows)
                   (get_dispatch sample_translation dispatch_request) tt
                 = ([Ev (GetDispatchLimitFromScript "hello")
                        (Resolved (VObj [("results", VArr [])]));
                     Ev (GetOutboundWorkerFromScript "hello") (Resolved VNull)],
                    Responded (ApiResponse "Could not connect to script" 500),
                    tt))
    by reflexivity.
  split; [exact Hrun|].
  refine (proj2 (proj2 (dispatch_needs_outbound_query sample_translation
                          _ _ _ _ _ _
                          (TypeError "Cannot read properties of null")
                          Hrun _))).
  right. by exists VNull.
Defined.

(** * The pages *)

Lemma append_assoc (s1 s2 s3 : string) : (s1 ++ s2) ++ s3 = s1 ++ s2 ++ s3.
Proof.
  induction s1 as [|a s1 IH]; [done|].
  change (String a ((s1 ++ s2) ++ s3) = String a (s1 ++ s2 ++ s3)).
  by f_equal.
Qed.

(** Case analysis on every call and every [BuildTable] of a run in
    hypothesis [H]. *)
Ltac page_cases H :=
  repeat match type of H with
         | context [admin_respond ?env ?c ?w] =>
             let E := fresh "Hcall" in
             destruct (admin_respond env c w) as [[?|?] ?] eqn:E; cbn in H
         | context [admin_lift ?x] =>
             let E := fresh "Hbuilt" in
             destruct x eqn:E; cbn in H
         | context [match ?x with Resolved _ => _ | Rejected _ => _ end] =>
             let E := fresh "Hbuilt" in
             destruct x eqn:E; cbn in H
         end.

Lemma admin_run_bind {W A B : Type} (env : admin_environment W)
    (p : admin A) (f : A -> admin B) (w : W) :
  admin_run env (p ≫= f) w =
  match admin_run env p w with
  | (t1, Responded a, w1) =>
      let '(t2, r, w2) := admin_run env (f a) w1 in ((t1 ++ t2)%list, r, w2)
  | (t1, Fault e, w1) => (t1, Fault e, w1)
  end.
Proof.
  change (p ≫= f) with (admin_bind p f).
  revert w. induction p as [a|e|c k IH]; intros w; simpl.
  - by destruct (admin_run env (f a) w) as [[t r] w2].
  - done.
  - destruct (admin_respond env c w) as [o w1]. rewrite IH.
    destruct (admin_run env (k o) w1) as [[t1 [a|e]] w2]; [|done].
    by destruct (admin_run env (f a) w2) as [[t2 r] w3].
Qed.

Lemma tables_fetched_app (t1 t2 : list admin_event) :
  tables_fetched (t1 ++ t2) = (tables_fetched t1 ++ tables_fetched t2)%list.
Proof.
  induction t1 as [|[c o] t1 IH]; [done|].
  destruct c; simpl; by rewrite ?IH.
Qed.

Lemma admin_calls_app (t1 t2 : list admin_event) :
  admin_calls (t1 ++ t2) = (admin_calls t1 ++ admin_calls t2)%list.
Proof. unfold admin_calls. apply fmap_app. Qed.

Lemma logged_app (t1 t2 : list admin_event) :
  logged (t1 ++ t2) = (logged t1 ++ logged t2)%list.
Proof. unfold logged. apply omap_app. Qed.

Lemma listing_app_none (t1 t2 : list admin_event) :
  listing t1 = None → listing (t1 ++ t2) = listing t2.
Proof.
  induction t1 as [|[c o] t1 IH]; [done|].
  destruct c; simpl; auto; discriminate.
Qed.

Section PageProperties.

Variable BuildTable : string -> value -> outcome string.
Variable DISPATCH_NAMESPACE_NAME : string.
Variable stringify : exn -> outcome string.

(** No log line can be made of a rejection with [null] or [undefined]. *)
Lemma log_text_nullish (e : exn) :
  nullish e = true →
  log_text stringify e
  = Rejected (TypeError "Cannot convert undefined or null to object").
Proof. intros H. unfold log_text. by rewrite H. Qed.

(** The first [try] of [GET /] never throws, and its runs are those of
    [store_section]. *)
Lemma run_store_section {W : Type} (env : admin_environment W) (w : W)
    (t : list admin_event) (r : result string) (w' : W) :
  admin_run env
    (admin_try (tables ← db_tables BuildTable; mret (page_header ++ tables))
               (fun _ => mret (page_header ++ no_db_message))) w
  = (t, r, w') →
  ∃ section,
    r = Responded (page_header ++ section)
    ∧ store_section BuildTable t section.
Proof.
  intros H. unfold db_tables in H. cbn in H.
  page_cases H; injection H as <- <- <-; eexists; (split; [reflexivity|]).
  - by apply store_shown.
  - by eapply store_tokens_unbuilt.
  - by eapply store_tokens_rejected.
  - by eapply store_customers_unbuilt.
  - apply store_customers_rejected.
Qed.

(** The first [try] only queries the store. *)
Lemma store_section_reads (t : list admin_event) (section : string) :
  store_section BuildTable t section →
  listing t = None
  ∧ logged t = []
  ∧ existsb admin_is_write (admin_calls t) = false.
Proof. by intros []. Qed.

(** The runs of the second [try] of [GET /] are those of
    [listed_section]. *)
Lemma run_namespace_section {W : Type} (env : admin_environment W)
    (body : string) (w : W) (t : list admin_event) (r : result string)
    (w' : W) :
  admin_run env
    (namespace_section BuildTable DISPATCH_NAMESPACE_NAME stringify body) w
  = (t, r, w') →
  ∃ r2,
    listed_section BuildTable DISPATCH_NAMESPACE_NAME stringify t r2
    ∧ r = match r2 with
          | Responded section => Responded (body ++ section)
          | Fault e => Fault e
          end.
Proof.
  intros H. unfold namespace_section, namespace_not_found in H. cbn in H.
  page_cases H; injection H as <- <- <-; rewrite ?append_assoc; eexists;
    (split;
     [first [by eapply listed_shown
            |by eapply listed_unbuilt
            |by eapply listed_unbuilt_unlogged
            |by eapply listed_rejected
            |by eapply listed_rejected_unlogged]
     |reflexivity]).
Qed.

(** The page as a whole: the two sections after the header, or the
    exception of the second. *)
Lemma run_index_page {W : Type} (env : admin_environment W) (w : W)
    (t : list admin_event) (r : result PageResponse) (w' : W) :
  admin_run env (index_page BuildTable DISPATCH_NAMESPACE_NAME stringify) w
  = (t, r, w') →
  ∃ t1 section1 t2 r2,
    t = (t1 ++ t2)%list
    ∧ store_section BuildTable t1 section1
    ∧ listed_section BuildTable DISPATCH_NAMESPACE_NAME stringify t2 r2
    ∧ r = match r2 with
          | Responded section2 =>
              Responded (HtmlResponse (page_header ++ section1 ++ section2))
          | Fault e => Fault e
          end.
Proof.
  unfold index_page. rewrite admin_run_bind.
  destruct (admin_run env (admin_try _ _) w) as [[t1 r1] w1] eqn:H1.
  apply run_store_section in H1 as (section1 & -> & Hstore).
  rewrite admin_run_bind.
  destruct (admin_run env (namespace_section _ _ _ _) w1) as [[t2 r2] w2] eqn:H2.
  apply run_namespace_section in H2 as (r2' & Hlisted & ->).
  destruct r2' as [section2|e]; cbn; intros H; injection H as <- <- <-.
  - exists t1, section1, t2, (Responded section2).
    rewrite app_nil_r, append_assoc. done.
  - by exists t1, section1, t2, (Fault e).
Qed.

(** X10.  No failure of the store, of the namespace or of [BuildTable]
    escapes [GET /]: the page answers with an [HtmlResponse] unless making
    the log line of the second [catch] throws, as it does for a rejection
    with [null] or [undefined]; that exception escapes, and nothing is
    logged.  The page only reads -- no deletion, no [Initialize] -- and it
    asks for the list of the namespace in every run, also after the store
    failed. *)
Theorem index_page_faults_only_in_log {W : Type} (env : admin_environment W)
    (w : W) (t : list admin_event) (r : result PageResponse) (w' : W) :
  admin_run env (index_page BuildTable DISPATCH_NAMESPACE_NAME stringify) w
  = (t, r, w') →
  existsb admin_is_write (admin_calls t) = false
  ∧ (∃ o, listing t = Some o)
  ∧ ((∃ body, r = Responded (HtmlResponse body))
     ∨ ∃ e e',
         (listing t = Some (Rejected e)
          ∨ ∃ scripts,
              listing t = Some (Resolved scripts)
              ∧ BuildTable DISPATCH_NAMESPACE_NAME (VArr scripts) = Rejected e)
         ∧ log_text stringify e = Rejected e'
         ∧ r = Fault e'
         ∧ logged t = [])
  ∧ (∀ e e',
       listing t = Some (Rejected e)
       ∨ (∃ scripts,
            listing t = Some (Resolved scripts)
            ∧ BuildTable DISPATCH_NAMESPACE_NAME (VArr scripts) = Rejected e) →
       log_text stringify e = Rejected e' →
       r = Fault e').
Proof.
  intros H. apply run_index_page in H
    as (t1 & section1 & t2 & r2 & -> & Hstore & Hlisted & ->).
  apply store_section_reads in Hstore as (Hl & Hlog & Hw).
  rewrite admin_calls_app, existsb_app, Hw, (listing_app_none _ _ Hl),
    logged_app, Hlog.
  destruct Hlisted as [scripts table Hbuilt|scripts e text o Hbuilt Htext
                      |scripts e e' Hbuilt Htext|e text o Htext|e e' Htext];
    simpl.
  - split; [done|]. split; [by eexists|]. split; [left; by eexists|].
    intros e e' [[=]|(scripts' & [= <-] & Hb)] Ht; congruence.
  - split; [done|]. split; [by eexists|]. split; [left; by eexists|].
    intros e0 e' [[=]|(scripts' & [= <-] & Hb)] Ht; congruence.
  - split; [done|]. split; [by eexists|]. split.
    + right. exists e, e'. split; [right; by exists scripts|done].
    + intros e0 e0' [[=]|(scripts' & [= <-] & Hb)] Ht; congruence.
  - split; [done|]. split; [by eexists|]. split; [left; by eexists|].
    intros e0 e' [[= <-]|(scripts' & [=] & Hb)] Ht; congruence.
  - split; [done|]. split; [by eexists|]. split.
    + right. exists e, e'. split; [by left|done].
    + intros e0 e0' [[= <-]|(scripts' & [=] & Hb)] Ht; congruence.
Qed.

(** X11.  A page that [GET /] answers with is the header, then the
    section of the store, then the section of the namespace.  The section
    of the store is all or nothing: both tables, when both queries and both
    [BuildTable] went through, or the notice alone; a table built before a
    later failure is not shown.  In every run, when the query for
    [customers] is rejected, [customer_tokens] is not queried. *)
Theorem index_page_tables_all_or_nothing {W : Type}
    (env : admin_environment W) (w : W) (t : list admin_event)
    (r : result PageResponse) (w' : W) :
  admin_run env (index_page BuildTable DISPATCH_NAMESPACE_NAME stringify) w
  = (t, r, w') →
  (∀ e more, tables_fetched t = ("customers", Rejected e) :: more → more = [])
  ∧ (∀ response,
       r = Responded response →
       ∃ section rest,
         response = HtmlResponse (page_header ++ section ++ rest)
         ∧ (section = no_db_message
            ∨ ∃ customers customer_tokens customers_table
                customer_tokens_table,
                tables_fetched t
                = [("customers", Resolved customers);
                   ("customer_tokens", Resolved customer_tokens)]
                ∧ BuildTable "customers" customers = Resolved customers_table
                ∧ BuildTable "customer_tokens" customer_tokens
                  = Resolved customer_tokens_table
                ∧ section = customers_table ++ customer_tokens_table)
         ∧ (∀ e more, tables_fetched t = ("customers", Rejected e) :: more →
                      section = no_db_message)).
Proof.
  intros H. apply run_index_page in H
    as (t1 & section1 & t2 & r2 & -> & Hstore & Hlisted & ->).
  assert (Hnone : tables_fetched t2 = []) by (by destruct Hlisted).
  rewrite tables_fetched_app, Hnone, app_nil_r.
  split.
  - destruct Hstore; by intros e' more [= <- <-] || intros e' more [=].
  - intros response Hr. destruct r2 as [section2|e]; [|discriminate Hr].
    injection Hr as <-. exists section1, section2. split; [done|].
    destruct Hstore;
      (split; [|by intros e' more [= <- <-] || intros e' more [=]]);
      try (by left).
    right. by eexists _, _, _, _.
Qed.

(** X12.  When the namespace cannot be listed and a log line can be made
    of the exception, the page says so and the line is logged once; the
    section of the store stays as it is in front of the notice.  When the
    list came but [BuildTable] threw, the heading is on the page already
    and the notice follows it.  When making the log line throws, that
    exception escapes the handler and nothing is logged: so it is for a
    rejection with [null] or [undefined]. *)
Theorem index_page_namespace_failure {W : Type}
    (env : admin_environment W) (w : W) (t : list admin_event)
    (r : result PageResponse) (w' : W) :
  admin_run env (index_page BuildTable DISPATCH_NAMESPACE_NAME stringify) w
  = (t, r, w') →
  ∃ section,
    (∃ t1, store_section BuildTable t1 section ∧ (∃ t2, t = (t1 ++ t2)%list))
    ∧ (∀ e, listing t = Some (Rejected e) →
            match log_text stringify e with
            | Resolved text =>
                r = Responded
                      (HtmlResponse
                         (page_header ++ section
                          ++ not_found_message DISPATCH_NAMESPACE_NAME))
                ∧ logged t = [[LogStr text]]
            | Rejected e' => r = Fault e' ∧ logged t = []
            end)
    ∧ (∀ scripts e,
         listing t = Some (Resolved scripts) →
         BuildTable DISPATCH_NAMESPACE_NAME (VArr scripts) = Rejected e →
         match log_text stringify e with
         | Resolved text =>
             r = Responded
                   (HtmlResponse
                      (page_header ++ section ++ namespace_heading
                       ++ not_found_message DISPATCH_NAMESPACE_NAME))
             ∧ logged t = [[LogStr text]]
         | Rejected e' => r = Fault e' ∧ logged t = []
         end)
    ∧ (∀ scripts table,
         listing t = Some (Resolved scripts) →
         BuildTable DISPATCH_NAMESPACE_NAME (VArr scripts) = Resolved table →
         r = Responded
               (HtmlResponse
                  (page_header ++ section ++ namespace_heading ++ table))
         ∧ logged t = [])
    ∧ (∀ e, listing t = Some (Rejected e) →
            nullish e = true →
            r = Fault (TypeError "Cannot convert undefined or null to object")
            ∧ logged t = []).
Proof.
  intros H. apply run_index_page in H
    as (t1 & section1 & t2 & r2 & -> & Hstore & Hlisted & ->).
  exists section1. split; [exists t1; split; [done|by exists t2]|].
  apply store_section_reads in Hstore as (Hl & Hlog & _).
  rewrite (listing_app_none _ _ Hl), logged_app, Hlog. simpl.
  destruct Hlisted as [scripts table Hbuilt|scripts e text o Hbuilt Htext
                      |scripts e e' Hbuilt Htext|e text o Htext|e e' Htext];
    simpl; repeat split; intros; simplify_eq;
    try match goal with
        | Hn : nullish _ = true |- _ =>
            apply log_text_nullish in Hn; simplify_eq
        end;
    try match goal with
        | Hb : BuildTable _ _ = _ |- _ =>
            lazymatch Hb with
            | Hbuilt => fail
            | _ => rewrite Hbuilt in Hb; simplify_eq
            end
        end;
    rewrite ?Htext; rewrite ?append_assoc; try done; congruence.
Qed.

End PageProperties.

Lemma index_page_faults_only_in_log_witness :
  admin_run namespace_rejects_null
    (index_page sample_table "customers-ns" sample_stringify) tt
  = ([AdminEv (FetchTable "customers") (Resolved (VArr []));
      AdminEv (FetchTable "customer_tokens") (Resolved (VArr []));
      AdminEv GetScriptsInDispatchNamespace (Rejected (Thrown VNull))],
     Fault (TypeError "Cannot convert undefined or null to object"), tt)
  ∧ ∃ e e',
      log_text sample_stringify e = Rejected e'
      ∧ (Fault (TypeError "Cannot convert undefined or null to object")
         : result PageResponse)
        = Fault e'
      ∧ logged
          [AdminEv (FetchTable "customers") (Resolved (VArr []));
           AdminEv (FetchTable "customer_tokens") (Resolved (VArr []));
           AdminEv GetScriptsInDispatchNamespace (Rejected (Thrown VNull))]
        = [].
Proof.
  assert (Hrun : admin_run namespace_rejects_null
                   (index_page sample_table "customers-ns" sample_stringify) tt
                 = ([AdminEv (FetchTable "customers") (Resolved (VArr []));
                     AdminEv (FetchTable "customer_tokens") (Resolved (VArr []));
                     AdminEv GetScriptsInDispatchNamespace
                       (Rejected (Thrown VNull))],
                    Fault
                      (TypeError "Cannot convert undefined or null to object"),
                    tt))
    by reflexivity.
  split; [exact Hrun|].
  destruct (index_page_faults_only_in_log _ _ _ _ _ _ _ _ Hrun)
    as (_ & _ & [[body Hbody]|(e & e' & _ & Htext & Hr & Hlogged)] & _).
  - discriminate Hbody.
  - by exists e, e'.
Defined.

Lemma index_page_tables_all_or_nothing_witness :
  admin_run store_offline (index_page sample_table "customers-ns" sample_stringify) tt
  = ([AdminEv (FetchTable "customers") (Rejected (Failure "D1_ERROR"));
      AdminEv GetScriptsInDispatchNamespace
        (Resolved [VObj [("id", VStr "hello")]])],
     Responded
       (HtmlResponse
          (page_header ++ no_db_message ++ namespace_heading
           ++ "<table id=" ++ dq ++ "customers-ns" ++ dq ++ "></table>")),
     tt)
  ∧ ∃ section rest,
      HtmlResponse
        (page_header ++ no_db_message ++ namespace_heading
         ++ "<table id=" ++ dq ++ "customers-ns" ++ dq ++ "></table>")
      = HtmlResponse (page_header ++ section ++ rest)
      ∧ section = no_db_message.
Proof.
  assert (Hrun : admin_run store_offline
                   (index_page sample_table "customers-ns" sample_stringify) tt
                 = ([AdminEv (FetchTable "customers")
                       (Rejected (Failure "D1_ERROR"));
                     AdminEv GetScriptsInDispatchNamespace
                       (Resolved [VObj [("id", VStr "hello")]])],
                    Responded
                      (HtmlResponse
                         (page_header ++ no_db_message ++ namespace_heading
                          ++ "<table id=" ++ dq ++ "customers-ns" ++ dq
                          ++ "></table>")),
                    tt))
    by reflexivity.
  split; [exact Hrun|].
  destruct (proj2 (index_page_tables_all_or_nothing _ _ _ _ _ _ _ _ Hrun)
              _ eq_refl)
    as (section & rest & Hr & _ & Hrejected).
  exists section, rest. split; [exact Hr|].
  exact (Hrejected _ _ eq_refl).
Defined.

Lemma index_page_namespace_failure_witness :
  admin_run namespace_offline
    (index_page sample_table "customers-ns" sample_stringify) tt
  = ([AdminEv (FetchTable "customers") (Resolved (VArr []));
      AdminEv (FetchTable "customer_tokens") (Resolved (VArr []));
      AdminEv GetScriptsInDispatchNamespace (Rejected (Failure "fetch failed"));
      AdminEv (page_log [LogStr "fetch failed"]) (Resolved tt)],
     Responded
       (HtmlResponse
          (page_header
           ++ ("<table id=" ++ dq ++ "customers" ++ dq ++ "></table>"
               ++ "<table id=" ++ dq ++ "customer_tokens" ++ dq ++ "></table>")
           ++ not_found_message "customers-ns")),
     tt)
  ∧ logged
      [AdminEv (FetchTable "customers") (Resolved (VArr []));
       AdminEv (FetchTable "customer_tokens") (Resolved (VArr []));
       AdminEv GetScriptsInDispatchNamespace (Rejected (Failure "fetch failed"));
       AdminEv (page_log [LogStr "fetch failed"]) (Resolved tt)]
    = [[LogStr "fetch failed"]].
Proof.
  assert (Hrun : admin_run namespace_offline
                   (index_page sample_table "customers-ns" sample_stringify) tt
                 = ([AdminEv (FetchTable "customers") (Resolved (VArr []));
                     AdminEv (FetchTable "customer_tokens") (Resolved (VArr []));
                     AdminEv GetScriptsInDispatchNamespace
                       (Rejected (Failure "fetch failed"));
                     AdminEv (page_log [LogStr "fetch failed"]) (Resolved tt)],
                    Responded
                      (HtmlResponse
                         (page_header
                          ++ ("<table id=" ++ dq ++ "customers" ++ dq
                              ++ "></table>"
                              ++ "<table id=" ++ dq ++ "customer_tokens" ++ dq
                              ++ "></table>")
                          ++ not_found_message "customers-ns")),
                    tt))
    by reflexivity.
  split; [exact Hrun|].
  destruct (index_page_namespace_failure _ _ _ _ _ _ _ _ Hrun)
    as (section & _ & Hrejected & _).
  exact (proj2 (Hrejected (Failure "fetch failed") eq_refl)).
Defined.

(** ** The reset *)

Lemma length_readable_ids (scripts : list value) :
  (length (readable_ids scripts) ≤ length scripts)%nat.
Proof.
  induction scripts as [|script rest IH]; simpl; [done|].
  destruct (get script "id"); simpl; lia.
Qed.

(** The deletions of [GET /init]: one call for every script whose id can
    be read, in the order of the list, whatever the answers; the promises
    settle as [promises] says, and none is rejected exactly when every id
    could be read and every deletion went through. *)
Lemma run_delete_all {W : Type} (env : admin_environment W)
    (scripts : list value) (w : W) :
  ∃ t outcomes w',
    admin_run env (delete_all scripts) w = (t, Responded outcomes, w')
    ∧ (deletions t).*1 = readable_ids scripts
    ∧ listing t = None
    ∧ initialization t = None
    ∧ outcomes = promises scripts (deletions t).*2
    ∧ (rejections outcomes = []
       ↔ length (readable_ids scripts) = length scripts
         ∧ Forall (fun d => ∃ u, d.2 = Resolved u) (deletions t)).
Proof.
  revert w. induction scripts as [|script rest IH]; intros w.
  - exists [], [], w. repeat split; auto.
  - cbn [delete_all promises]. unfold readable_ids. cbn [omap list_omap].
    fold (readable_ids rest).
    pose proof (length_readable_ids rest) as Hlen.
    destruct (get script "id") as [id|e].
    + cbn [admin_run].
      destruct (admin_respond env _ w) as [o w1].
      change (admin_bind (delete_all rest) ?f) with (delete_all rest ≫= f).
      rewrite admin_run_bind.
      destruct (IH w1) as (t & outcomes & w' & -> & Hids & Hl & Hi & Hp & Hrej).
      cbn. eexists _, _, _. split; [reflexivity|].
      rewrite app_nil_r. cbn. rewrite Hids.
      do 3 (split; [done|]). split; [by rewrite Hp|].
      destruct o as [u|e]; cbn.
      * rewrite Hrej, Forall_cons. split.
        -- intros [? ?]. repeat split; eauto.
        -- intros [? [_ ?]]. split; [lia|done].
      * split; [done|]. intros [_ Hall].
        apply Forall_cons in Hall as [[u Hu] _]. discriminate Hu.
    + change (admin_bind (delete_all rest) ?f) with (delete_all rest ≫= f).
      rewrite admin_run_bind.
      destruct (IH w) as (t & outcomes & w' & -> & Hids & Hl & Hi & Hp & Hrej).
      cbn. eexists _, _, _. split; [reflexivity|].
      rewrite app_nil_r.
      do 3 (split; [done|]). split; [by rewrite Hp|].
      split; [intros Hx; discriminate Hx|].
      intros [Hbad _]. simpl in Hbad. lia.
Qed.

Lemma deletions_app (t1 t2 : list admin_event) :
  deletions (t1 ++ t2) = (deletions t1 ++ deletions t2)%list.
Proof.
  induction t1 as [|[c o] t1 IH]; [done|].
  destruct c; simpl; by rewrite ?IH.
Qed.

Lemma initialization_app_none (t1 t2 : list admin_event) :
  initialization t1 = None → initialization (t1 ++ t2) = initialization t2.
Proof.
  induction t1 as [|[c o] t1 IH]; [done|].
  destruct c; simpl; auto; discriminate.
Qed.

Section ResetProperties.

Variable first_settled : list exn -> nat.
Variable href : string -> outcome string.

(** What [Promise.all] reports is the rejection of one of its promises. *)
Lemma reported_among (e : exn) (es : list exn) :
  reported first_settled e es ∈ e :: es.
Proof.
  unfold reported. apply list_elem_of_In.
  destruct (Nat.lt_ge_cases (first_settled (e :: es)) (length (e :: es)))
    as [Hlt|Hge].
  - by apply nth_In.
  - rewrite nth_overflow by done. by left.
Qed.

(** The runs of [GET /init]: the listing, the deletions, and [Initialize]
    and the redirect if no promise of a deletion was rejected. *)
Lemma run_init_page {W : Type} (env : admin_environment W)
    (request : IRequest) (w : W) (t : list admin_event)
    (r : result PageResponse) (w' : W) :
  admin_run env (init_page first_settled href request) w = (t, r, w') →
  (∃ e, t = [AdminEv GetScriptsInDispatchNamespace (Rejected e)]
        ∧ r = Fault e)
  ∨ ∃ scripts t1 t2,
      t = (AdminEv GetScriptsInDispatchNamespace (Resolved scripts)
           :: t1 ++ t2)%list
      ∧ (deletions t1).*1 = readable_ids scripts
      ∧ listing t1 = None
      ∧ initialization t1 = None
      ∧ ((length (readable_ids scripts) = length scripts
          ∧ Forall (fun d => ∃ u, d.2 = Resolved u) (deletions t1)
          ∧ ∃ o, t2 = [AdminEv Initialize o]
                 ∧ r = match o with
                       | Resolved _ =>
                           match href (replace_first "/init" "" (url request)) with
                           | Resolved location => Responded (Redirect location)
                           | Rejected e => Fault e
                           end
                       | Rejected e => Fault e
                       end)
         ∨ (¬ (length (readable_ids scripts) = length scripts
               ∧ Forall (fun d => ∃ u, d.2 = Resolved u) (deletions t1))
            ∧ t2 = []
            ∧ ∃ e es,
                rejections (promises scripts (deletions t1).*2) = e :: es
                ∧ r = Fault (reported first_settled e es))).
Proof.
  unfold init_page. rewrite admin_run_bind. unfold ask. cbn [admin_run].
  destruct (admin_respond env _ w) as [[scripts|e] w1]; cbn [admin_run admin_lift];
    [|intros H; injection H as <- <- <-; left; by exists e].
  rewrite admin_run_bind.
  destruct (run_delete_all env scripts w1)
    as (t1 & outcomes & w2 & -> & Hids & Hl & Hi & Hp & Hrej).
  destruct (rejections outcomes) as [|e es] eqn:Hrejections.
  - rewrite admin_run_bind. cbn [admin_run].
    destruct (admin_respond env Initialize w2) as [o w3].
    destruct (proj1 Hrej eq_refl) as [Hlen Hall].
    unfold redirect.
    destruct o as [u|e];
      [destruct (href (replace_first "/init" "" (url request)))
         as [location|e] eqn:Hhref|];
      cbn; intros H; injection H as <- <- <-; right.
    + exists scripts, t1, [AdminEv Initialize (Resolved u)].
      rewrite ?app_nil_r. split; [reflexivity|]. do 3 (split; [done|]).
      left. do 2 (split; [done|]). by exists (Resolved u).
    + exists scripts, t1, [AdminEv Initialize (Resolved u)].
      rewrite ?app_nil_r. split; [reflexivity|]. do 3 (split; [done|]).
      left. do 2 (split; [done|]). by exists (Resolved u).
    + exists scripts, t1, [AdminEv Initialize (Rejected e)].
      rewrite ?app_nil_r. split; [reflexivity|]. do 3 (split; [done|]).
      left. do 2 (split; [done|]). by exists (Rejected e).
  - cbn. intros H; injection H as <- <- <-.
    right. exists scripts, t1, []. rewrite ?app_nil_r.
    split; [reflexivity|]. do 3 (split; [done|]). right.
    split; [|split; [done|exists e, es; by rewrite <- Hp]].
    intros Hok. apply Hrej in Hok. discriminate Hok.
Qed.

(** X13.  Once the namespace is listed, [GET /init] starts a deletion
    for every listed script whose [id] can be read, in the order of the
    list and once each, whatever becomes of the other deletions: a rejected
    deletion does not keep the later ones from being started. *)
Theorem init_page_deletes_every_script {W : Type}
    (env : admin_environment W) (request : IRequest) (w : W)
    (t : list admin_event) (r : result PageResponse) (w' : W)
    (scripts : list value) :
  admin_run env (init_page first_settled href request) w = (t, r, w') →
  listing t = Some (Resolved scripts) →
  (deletions t).*1 = readable_ids scripts.
Proof.
  intros H Hlisting. apply run_init_page in H
    as [(e & -> & _)|(scripts' & t1 & t2 & -> & Hids & Hl & Hi & Hcases)];
    simpl in Hlisting; simplify_eq.
  simpl. rewrite deletions_app.
  destruct Hcases as [(_ & _ & o & -> & _)|(_ & -> & _)]; simpl;
    by rewrite app_nil_r.
Qed.

(** X14.  [GET /init] calls [Initialize] if and only if the namespace was
    listed, the id of every listed script could be read and every deletion
    went through; [Initialize] is then the last call of the run.  After a
    rejected deletion the store is left as it was. *)
Theorem init_page_initializes_after_deletions {W : Type}
    (env : admin_environment W) (request : IRequest) (w : W)
    (t : list admin_event) (r : result PageResponse) (w' : W) :
  admin_run env (init_page first_settled href request) w = (t, r, w') →
  (initialization t ≠ None
   ↔ ∃ scripts,
       listing t = Some (Resolved scripts)
       ∧ length (readable_ids scripts) = length scripts
       ∧ Forall (fun d => ∃ u, d.2 = Resolved u) (deletions t))
  ∧ (initialization t ≠ None → last (admin_calls t) = Some Initialize).
Proof.
  intros H. apply run_init_page in H
    as [(e & -> & _)|(scripts & t1 & t2 & -> & Hids & Hl & Hi & Hcases)].
  - split; [split|]; [done| |done]. intros (scripts & Hlisting & _).
    discriminate Hlisting.
  - cbn [initialization listing deletions admin_calls fmap list_fmap
           admin_call_of].
    rewrite (initialization_app_none _ _ Hi), deletions_app.
    destruct Hcases as [(Hlen & Hall & o & -> & _)|(Hbad & -> & _)].
    + split; [split|].
      * intros _. exists scripts. simpl. by rewrite app_nil_r.
      * done.
      * intros _. change (list_fmap _ _ admin_call_of) with admin_calls.
        rewrite admin_calls_app. simpl.
        by rewrite last_cons, last_snoc.
    + rewrite !app_nil_r. simpl. split; [split|]; [done| |done].
      intros (scripts' & [= <-] & Hlen & Hall). by destruct Hbad.
Qed.

(** X15.  [GET /init] answers, and then with a redirect, exactly when
    [Initialize] went through and the url of the request with its first
    [/init] taken out parses; the location is that url as the parser
    serializes it.  In every other run an exception escapes the handler:
    the rejection of the listing, the rejection of [Initialize], the
    [TypeError] of a location that does not parse -- the store is
    initialized by then -- or the rejection [Promise.all] reports, which is
    the rejection of one of the promises of the deletions of this run. *)
Theorem init_page_redirects_or_faults {W : Type}
    (env : admin_environment W) (request : IRequest) (w : W)
    (t : list admin_event) (r : result PageResponse) (w' : W) :
  admin_run env (init_page first_settled href request) w = (t, r, w') →
  (∀ response,
     r = Responded response
     ↔ ∃ u location,
         initialization t = Some (Resolved u)
         ∧ href (replace_first "/init" "" (url request)) = Resolved location
         ∧ response = Redirect location)
  ∧ (∀ e,
       r = Fault e
       ↔ listing t = Some (Rejected e)
         ∨ initialization t = Some (Rejected e)
         ∨ ((∃ u, initialization t = Some (Resolved u))
            ∧ href (replace_first "/init" "" (url request)) = Rejected e)
         ∨ (∃ scripts e1 es,
              listing t = Some (Resolved scripts)
              ∧ initialization t = None
              ∧ rejections (promises scripts (deletions t).*2) = e1 :: es
              ∧ e = reported first_settled e1 es
              ∧ e ∈ e1 :: es)).
Proof.
  intros H. apply run_init_page in H
    as [(e & -> & ->)|(scripts & t1 & t2 & -> & Hids & Hl & Hi & Hcases)].
  - split.
    + intros response. split; [done|]. intros (u & _ & Hu & _).
      discriminate Hu.
    + intros e'. split.
      * intros [= <-]. by left.
      * intros [[= <-]|[[=]|[[[u [=]] _]|(scripts & _ & _ & [=] & _)]]].
        done.
  - cbn [initialization listing deletions].
    rewrite (initialization_app_none _ _ Hi), deletions_app.
    destruct Hcases as [(Hlen & Hall & [u|e] & -> & ->)
                       |(Hbad & -> & e1 & es & Hrejections & ->)]; simpl.
    + destruct (href (replace_first "/init" "" (url request)))
        as [location|e] eqn:Hhref.
      * split.
        -- intros response. split.
           ++ intros [= <-]. by exists u, location.
           ++ intros (u' & location' & _ & [= <-] & ->). done.
        -- intros e. split; [done|].
           intros [[=]|[[=]|[[_ [=]]|(? & ? & ? & _ & [=] & _)]]].
      * split.
        -- intros response. split; [done|].
           intros (u' & location' & _ & [=] & _).
        -- intros e'. split.
           ++ intros [= <-]. right; right; left. split; [by exists u|done].
           ++ intros [[=]|[[=]|[[_ [= <-]]|(? & ? & ? & _ & [=] & _)]]].
              done.
    + split.
      * intros response. split; [done|].
        intros (u' & location' & [=] & _).
      * intros e'. split.
        -- intros [= <-]. right; by left.
        -- intros [[=]|[[= <-]|[[[u [=]] _]|(? & ? & ? & _ & [=] & _)]]].
           done.
    + rewrite !app_nil_r. split.
      * intros response. split; [done|].
        intros (u' & location' & [=] & _).
      * intros e'. split.
        -- intros [= <-]. right; right; right.
           exists scripts, e1, es. do 3 (split; [done|]).
           split; [done|apply reported_among].
        -- intros [[=]|[[=]|[[[u [=]] _]
                            |(scripts' & e1' & es' & [= <-] & _ & Hr & -> & _)]]].
           rewrite Hrejections in Hr. by injection Hr as <- <-.
Qed.

End ResetProperties.

Lemma init_page_deletes_every_script_witness :
  admin_run stubborn_script
    (init_page sample_first sample_href init_request) tt
  = ([AdminEv GetScriptsInDispatchNamespace
        (Resolved [VObj [("id", VStr "first")]; VObj [("id", VStr "second")]]);
      AdminEv (DeleteScriptInDispatchNamespace (VStr "first"))
        (Rejected (Failure "fetch failed"));
      AdminEv (DeleteScriptInDispatchNamespace (VStr "second")) (Resolved tt)],
     Fault (Failure "fetch failed"), tt)
  ∧ (deletions
       [AdminEv GetScriptsInDispatchNamespace
          (Resolved [VObj [("id", VStr "first")]; VObj [("id", VStr "second")]]);
        AdminEv (DeleteScriptInDispatchNamespace (VStr "first"))
          (Rejected (Failure "fetch failed"));
        AdminEv (DeleteScriptInDispatchNamespace (VStr "second"))
          (Resolved tt)]).*1
    = [VStr "first"; VStr "second"].
Proof.
  assert (Hrun : admin_run stubborn_script
                   (init_page sample_first sample_href init_request) tt
                 = ([AdminEv GetScriptsInDispatchNamespace
                       (Resolved [VObj [("id", VStr "first")];
                                  VObj [("id", VStr "second")]]);
                     AdminEv (DeleteScriptInDispatchNamespace (VStr "first"))
                       (Rejected (Failure "fetch failed"));
                     AdminEv (DeleteScriptInDispatchNamespace (VStr "second"))
                       (Resolved tt)],
                    Fault (Failure "fetch failed"), tt))
    by reflexivity.
  split; [exact Hrun|].
  exact (init_page_deletes_every_script sample_first sample_href
           _ _ _ _ _ _
           [VObj [("id", VStr "first")]; VObj [("id", VStr "second")]]
           Hrun eq_refl).
Defined.

Lemma init_page_initializes_after_deletions_witness :
  admin_run all_online (init_page sample_first sample_href init_request) tt
  = ([AdminEv GetScriptsInDispatchNamespace
        (Resolved [VObj [("id", VStr "first")]; VObj [("id", VStr "second")]]);
      AdminEv (DeleteScriptInDispatchNamespace (VStr "first")) (Resolved tt);
      AdminEv (DeleteScriptInDispatchNamespace (VStr "second")) (Resolved tt);
      AdminEv Initialize (Resolved tt)],
     Responded (Redirect "https://gateway.example/"), tt)
  ∧ last (admin_calls
            [AdminEv GetScriptsInDispatchNamespace
               (Resolved [VObj [("id", VStr "first")];
                          VObj [("id", VStr "second")]]);
             AdminEv (DeleteScriptInDispatchNamespace (VStr "first"))
               (Resolved tt);
             AdminEv (DeleteScriptInDispatchNamespace (VStr "second"))
               (Resolved tt);
             AdminEv Initialize (Resolved tt)])
    = Some Initialize.
Proof.
  assert (Hrun : admin_run all_online
                   (init_page sample_first sample_href init_request) tt
                 = ([AdminEv GetScriptsInDispatchNamespace
                       (Resolved [VObj [("id", VStr "first")];
                                  VObj [("id", VStr "second")]]);
                     AdminEv (DeleteScriptInDispatchNamespace (VStr "first"))
                       (Resolved tt);
                     AdminEv (DeleteScriptInDispatchNamespace (VStr "second"))
                       (Resolved tt);
                     AdminEv Initialize (Resolved tt)],
                    Responded (Redirect "https://gateway.example/"), tt))
    by reflexivity.
  split; [exact Hrun|].
  refine (proj2 (init_page_initializes_after_deletions sample_first sample_href
                   _ _ _ _ _ _ Hrun) _).
  discriminate.
Defined.

Lemma init_page_redirects_or_faults_witness :
  admin_run all_online
    (init_page sample_first sample_href init_host_request) tt
  = ([AdminEv GetScriptsInDispatchNamespace
        (Resolved [VObj [("id", VStr "first")]; VObj [("id", VStr "second")]]);
      AdminEv (DeleteScriptInDispatchNamespace (VStr "first")) (Resolved tt);
      AdminEv (DeleteScriptInDispatchNamespace (VStr "second")) (Resolved tt);
      AdminEv Initialize (Resolved tt)],
     Fault (TypeError "Invalid URL"), tt)
  ∧ (listing
       [AdminEv GetScriptsInDispatchNamespace
          (Resolved [VObj [("id", VStr "first")];
                     VObj [("id", VStr "second")]]);
        AdminEv (DeleteScriptInDispatchNamespace (VStr "first")) (Resolved tt);
        AdminEv (DeleteScriptInDispatchNamespace (VStr "second")) (Resolved tt);
        AdminEv Initialize (Resolved tt)]
     = Some (Rejected (TypeError "Invalid URL"))
     ∨ initialization
         [AdminEv GetScriptsInDispatchNamespace
            (Resolved [VObj [("id", VStr "first")];
                       VObj [("id", VStr "second")]]);
          AdminEv (DeleteScriptInDispatchNamespace (VStr "first"))
            (Resolved tt);
          AdminEv (DeleteScriptInDispatchNamespace (VStr "second"))
            (Resolved tt);
          AdminEv Initialize (Resolved tt)]
       = Some (Rejected (TypeError "Invalid URL"))
     ∨ ((∃ u,
           initialization
             [AdminEv GetScriptsInDispatchNamespace
                (Resolved [VObj [("id", VStr "first")];
                           VObj [("id", VStr "second")]]);
              AdminEv (DeleteScriptInDispatchNamespace (VStr "first"))
                (Resolved tt);
              AdminEv (DeleteScriptInDispatchNamespace (VStr "second"))
                (Resolved tt);
              AdminEv Initialize (Resolved tt)]
           = Some (Resolved u))
        ∧ sample_href (replace_first "/init" "" (url init_host_request))
          = Rejected (TypeError "Invalid URL"))
     ∨ ∃ scripts e1 es,
         listing
           [AdminEv GetScriptsInDispatchNamespace
              (Resolved [VObj [("id", VStr "first")];
                         VObj [("id", VStr "second")]]);
            AdminEv (DeleteScriptInDispatchNamespace (VStr "first"))
              (Resolved tt);
            AdminEv (DeleteScriptInDispatchNamespace (VStr "second"))
              (Resolved tt);
            AdminEv Initialize (Resolved tt)]
         = Some (Resolved scripts)
         ∧ initialization
             [AdminEv GetScriptsInDispatchNamespace
                (Resolved [VObj [("id", VStr "first")];
                           VObj [("id", VStr "second")]]);
              AdminEv (DeleteScriptInDispatchNamespace (VStr "first"))
                (Resolved tt);
              AdminEv (DeleteScriptInDispatchNamespace (VStr "second"))
                (Resolved tt);
              AdminEv Initialize (Resolved tt)]
           = None
         ∧ rejections
             (promises scripts
                (deletions
                   [AdminEv GetScriptsInDispatchNamespace
                      (Resolved [VObj [("id", VStr "first")];
                                 VObj [("id", VStr "second")]]);
                    AdminEv (DeleteScriptInDispatchNamespace (VStr "first"))
                      (Resolved tt);
                    AdminEv (DeleteScriptInDispatchNamespace (VStr "second"))
                      (Resolved tt);
                    AdminEv Initialize (Resolved tt)]).*2)
           = e1 :: es
         ∧ TypeError "Invalid URL" = reported sample_first e1 es
         ∧ TypeError "Invalid URL" ∈ e1 :: es).
Proof.
  assert (Hrun : admin_run all_online
                   (init_page sample_first sample_href init_host_request) tt
                 = ([AdminEv GetScriptsInDispatchNamespace
                       (Resolved [VObj [("id", VStr "first")];
                                  VObj [("id", VStr "second")]]);
                     AdminEv (DeleteScriptInDispatchNamespace (VStr "first"))
                       (Resolved tt);
                     AdminEv (DeleteScriptInDispatchNamespace (VStr "second"))
                       (Resolved tt);
                     AdminEv Initialize (Resolved tt)],
                    Fault (TypeError "Invalid URL"), tt))
    by reflexivity.
  split; [exact Hrun|].
  exact (proj1 (proj2 (init_page_redirects_or_faults sample_first sample_href
                         _ _ _ _ _ _ Hrun) _) eq_refl).
Defined.

(** The string handed to [Response.redirect], for a url that ends with
    the path, and for a host named [init]: the first [/init] of the url is
    the one taken out, which leaves the second url without a host. *)
Example redirect_locations :
  replace_first "/init" "" "https://gateway.example/init"
  = "https://gateway.example"
  ∧ replace_first "/init" "" "https://init:8080/init"
    = "https:/:8080/init".
Proof. split; reflexivity. Qed.

(** With every deletion through and the store initialized, a request
    whose url ends with the path is redirected. *)
Example init_page_redirects :
  admin_run all_online (init_page sample_first sample_href init_request) tt
  = ([AdminEv GetScriptsInDispatchNamespace
        (Resolved [VObj [("id", VStr "first")]; VObj [("id", VStr "second")]]);
      AdminEv (DeleteScriptInDispatchNamespace (VStr "first")) (Resolved tt);
      AdminEv (DeleteScriptInDispatchNamespace (VStr "second")) (Resolved tt);
      AdminEv Initialize (Resolved tt)],
     Responded (Redirect "https://gateway.example/"), tt).
Proof. reflexivity. Qed.
